(** * manual-nas-tool: a shallow embedding of the interactive backup wrapper

    The Python script [manual-nas-tool.py] asks a user for a source folder and
    one or two destinations, then drives [restic] or [rclone] through shell
    commands.  This development embeds the helpers, the two backup strategies
    and the per-destination loop of [main] as Rocq functions over an explicit
    world (console input, console output, sub-processes, random numbers) and
    proves the properties the specification states about them. *)

From Stdlib Require Import List Bool Arith NArith ZArith Lia.
From Stdlib Require Import Ascii String DecimalString DecimalZ DecimalPos.
Import ListNotations.

Set Implicit Arguments.

(** ** Python strings

    A Python [str] is a sequence of Unicode code points.  A code point is a
    natural number; literals are written [py "text"] for ASCII text. *)

Module PyStr.

Local Open Scope N_scope.

Definition char := N.
Definition str := list char.

Definition py (s : string) : str := map N_of_ascii (list_ascii_of_string s).

Definition char_eqb (a b : char) : bool := N.eqb a b.

Fixpoint eqb (a b : str) : bool :=
  match a, b with
  | [], [] => true
  | x :: a', y :: b' => char_eqb x y && eqb a' b'
  | _, _ => false
  end.

(** [x in [a, b, ...]] on strings. *)
Definition member (x : str) (l : list str) : bool := existsb (eqb x) l.

Fixpoint dropwhile (p : char -> bool) (s : str) : str :=
  match s with
  | [] => []
  | c :: r => if p c then dropwhile p r else s
  end.

(** [s.strip(chars)] for a character class [p]: both ends are trimmed. *)
Definition strip_class (p : char -> bool) (s : str) : str :=
  rev (dropwhile p (rev (dropwhile p s))).

(** CPython's [Py_UNICODE_ISSPACE]: the code points [str.strip()] with no
    argument removes and the regular-expression class [\s] matches on [str]
    patterns. *)
Definition isspace (c : char) : bool :=
  ((9 <=? c) && (c <=? 13)) || ((28 <=? c) && (c <=? 32))
  || (c =? 133) || (c =? 160) || (c =? 5760)
  || ((8192 <=? c) && (c <=? 8202))
  || (c =? 8232) || (c =? 8233) || (c =? 8239) || (c =? 8287)
  || (c =? 12288).

Definition strip (s : str) : str := strip_class isspace s.

Definition slash : char := 47.

(** [s.strip("/")] *)
Definition strip_slash (s : str) : str := strip_class (char_eqb slash) s.

(** [s.split(sep)] for a one-character separator: empty segments are kept,
    and the empty string splits into one empty segment. *)
Fixpoint split (sep : char) (s : str) : list str :=
  match s with
  | [] => [[]]
  | c :: r =>
      if char_eqb c sep then [] :: split sep r
      else match split sep r with
           | seg :: segs => (c :: seg) :: segs
           | [] => [[c]]
           end
  end.

Definition is_ascii (c : char) : bool := c <? 128.

Definition is_upper (c : char) : bool := (65 <=? c) && (c <=? 90).
Definition is_lower (c : char) : bool := (97 <=? c) && (c <=? 122).
Definition is_digit (c : char) : bool := (48 <=? c) && (c <=? 57).


(** Lower-casing of one ASCII character. *)
Definition ascii_lower (c : char) : char := if is_upper c then c + 32 else c.

Fixpoint prefixb (p s : str) : bool :=
  match p, s with
  | [], _ => true
  | x :: p', y :: s' => char_eqb x y && prefixb p' s'
  | _ :: _, [] => false
  end.

(** [needle in hay] *)
Fixpoint contains (needle hay : str) : bool :=
  prefixb needle hay ||
  match hay with
  | [] => false
  | _ :: r => contains needle r
  end.

Definition startswith (s p : str) : bool := prefixb p s.
Definition endswith (s p : str) : bool := prefixb (rev p) (rev s).

(** [sep.join(parts)] *)
Fixpoint join (sep : str) (parts : list str) : str :=
  match parts with
  | [] => []
  | [p] => p
  | p :: rest => p ++ sep ++ join sep rest
  end.

(** [l[-n:]] *)
Definition last_n {A} (n : nat) (l : list A) : list A :=
  skipn (List.length l - n)%nat l.

End PyStr.

Import PyStr.

Local Open Scope N_scope.

(** ** The Unicode tables the script relies on

    [unicodedata.normalize('NFKD', _)] and [str.lower] are library tables.
    They are parameters of the development; what is assumed about them is
    their behaviour on ASCII text.  [latin_nfkd] and [plain_lower] are small
    concrete tables used to run the model on examples. *)



Definition plain_lower (s : str) : str := map ascii_lower s.

(** ** The world the script runs in *)

(** What a sub-process started through the shell does: it either runs to
    completion, with its captured standard output, the lines of its merged
    output stream and its return code, or the machinery that starts and reads
    it raises an exception after some lines were read. *)
Inductive ProcBehaviour : Type :=
| Completes (stdout : str) (merged : list str) (returncode : Z)
| Fails (merged : list str) (exn : str).

Inductive Event : Type :=
| EvExec (cmd : str) (env_vars : list (str * str))
| EvLog (log_file : str) (text : str).

Record World : Type := mkWorld {
  stdin : list str;                 (* lines the user will type *)
  console : list str;               (* what was printed, oldest first *)
  events : list Event;              (* commands run and log writes, oldest first *)
  shell : list Event -> str -> ProcBehaviour;
  rand : nat -> nat;                (* the random source *)
  rand_pos : nat;
  env_USER : option str;            (* os.getenv('USER') *)
  clock_hms : str;                  (* datetime.now() as %H:%M:%S *)
  clock_ymd : str;                  (* datetime.now() as %Y%m%d *)
  current_operation : str;          (* global of the progress spinner *)
  backup_passwords : list (str * str)
}.

Definition set_stdin (l : list str) (w : World) : World :=
  mkWorld l (console w) (events w) (shell w) (rand w) (rand_pos w)
          (env_USER w) (clock_hms w) (clock_ymd w) (current_operation w)
          (backup_passwords w).

Definition add_console (s : str) (w : World) : World :=
  mkWorld (stdin w) (console w ++ [s]) (events w) (shell w) (rand w)
          (rand_pos w) (env_USER w) (clock_hms w) (clock_ymd w)
          (current_operation w) (backup_passwords w).

Definition add_event (e : Event) (w : World) : World :=
  mkWorld (stdin w) (console w) (events w ++ [e]) (shell w) (rand w)
          (rand_pos w) (env_USER w) (clock_hms w) (clock_ymd w)
          (current_operation w) (backup_passwords w).

Definition set_rand_pos (n : nat) (w : World) : World :=
  mkWorld (stdin w) (console w) (events w) (shell w) (rand w) n
          (env_USER w) (clock_hms w) (clock_ymd w) (current_operation w)
          (backup_passwords w).

Definition set_current_operation (s : str) (w : World) : World :=
  mkWorld (stdin w) (console w) (events w) (shell w) (rand w) (rand_pos w)
          (env_USER w) (clock_hms w) (clock_ymd w) s (backup_passwords w).

Definition set_backup_password (k v : str) (w : World) : World :=
  mkWorld (stdin w) (console w) (events w) (shell w) (rand w) (rand_pos w)
          (env_USER w) (clock_hms w) (clock_ymd w) (current_operation w)
          ((k, v) :: filter (fun kv => negb (PyStr.eqb (fst kv) k))
                            (backup_passwords w)).

(** How a call ends: it returns, it raises an exception, or the process
    exits ([sys.exit]). *)
Inductive Outcome (A : Type) : Type :=
| Normal (a : A) (w : World)
| Raised (e : str) (w : World)
| Exited (code : Z) (w : World).

Arguments Normal {A} a w.
Arguments Raised {A} e w.
Arguments Exited {A} code w.

Definition M (A : Type) : Type := World -> Outcome A.

Definition ret {A} (a : A) : M A := fun w => Normal a w.

Definition bind {A B} (c : M A) (k : A -> M B) : M B :=
  fun w =>
    match c w with
    | Normal a w' => k a w'
    | Raised e w' => Raised e w'
    | Exited n w' => Exited n w'
    end.

Notation "x <- c ;; k" := (bind c (fun x => k))
  (at level 61, c at next level, right associativity).
Notation "c ;;; k" := (bind c (fun _ => k))
  (at level 61, right associativity).

Definition get {A} (f : World -> A) : M A := fun w => Normal (f w) w.
Definition modify (f : World -> World) : M unit := fun w => Normal tt (f w).
Definition sys_exit {A} (code : Z) : M A := fun w => Exited code w.

Definition print (s : str) : M unit := modify (add_console s).

Definition EOFError : str := py "EOFError".

(** [input(prompt)]: the prompt is written, one line is read. *)
Definition input (prompt : str) : M str :=
  fun w =>
    let w1 := add_console prompt w in
    match stdin w1 with
    | [] => Raised EOFError w1
    | l :: rest => Normal l (set_stdin rest w1)
    end.

(** [random.choice(seq)] *)
Definition random_choice (seq : str) : M char :=
  fun w =>
    Normal (nth (rand w (rand_pos w) mod List.length seq)%nat seq 0)
           (set_rand_pos (S (rand_pos w)) w).

(** ** Colours and icons *)

Definition esc (code : string) : str := 27 :: py code.
Definition GREEN := esc "[92m".
Definition YELLOW := esc "[93m".
Definition RED := esc "[91m".
Definition BLUE := esc "[94m".
Definition CYAN := esc "[96m".
Definition RESET := esc "[0m".
Definition BOLD := esc "[1m".

Definition OK := GREEN ++ [9989] ++ RESET.
Definition WARN := YELLOW ++ [9888; 65039] ++ RESET.
Definition ERR := RED ++ [10060] ++ RESET.
Definition INFO := BLUE ++ [8505; 65039] ++ RESET.

Definition nl : str := [10].

Section Tool.

Variable nfkd : str -> str.
Variable lower : str -> str.
(** [int(text)]: [None] stands for [ValueError]. *)
Variable py_int : str -> option Z.






(** Leaf names of the two strategies. *)
Definition repo_name (normalized_name : str) : str :=
  normalized_name ++ py "_encrypted".

Definition backup_name (normalized_name : str) : str :=
  normalized_name ++ py "_backup".


(** ** General helpers *)

(** [cleanup(sig, frame)] *)
Definition cleanup {A} (sig : bool) : M A :=
  (if sig then print (nl ++ WARN ++ py " Operation cancelled by user.")
   else ret tt) ;;;
  sys_exit 0%Z.

(** Starting a sub-process: the launch is recorded and the shell tells what
    the process does. *)
Definition launch (cmd : str) (env_vars : list (str * str)) : M ProcBehaviour :=
  fun w => Normal (shell w (events w) cmd) (add_event (EvExec cmd env_vars) w).

(** [run_cmd(cmd, env_vars)]: the [Fails] arm is the [except Exception]
    clause. *)
Definition run_cmd (cmd : str) (env_vars : list (str * str)) : M (bool * str) :=
  b <- launch cmd env_vars ;;
  match b with
  | Completes stdout _ returncode => ret (Z.eqb returncode 0, strip stdout)
  | Fails _ _ => ret (false, py "Failed to execute command.")
  end.

Definition show_progress (operation : str) : M unit :=
  modify (set_current_operation operation).

Definition stop_progress : M unit :=
  modify (set_current_operation []) ;;; print [].

Definition log_append (log_file text : str) : M unit :=
  modify (add_event (EvLog log_file text)).

Fixpoint print_all (lines : list str) : M unit :=
  match lines with
  | [] => ret tt
  | l :: r => print l ;;; print_all r
  end.

(** [run_cmd_with_progress(cmd, operation, log_file, env_vars)].  The lines
    read before an exception stay in [output_lines]; the [except] clause
    appends the text of the exception to them. *)
Definition run_cmd_with_progress (cmd operation log_file : str)
    (env_vars : list (str * str)) : M (bool * list str) :=
  print (nl ++ INFO ++ py " Starting " ++ operation ++ py "...") ;;;
  show_progress operation ;;;
  hms <- get clock_hms ;;
  log_append log_file (py "[" ++ hms ++ py "] Executing: " ++ cmd ++ nl) ;;;
  b <- launch cmd env_vars ;;
  let '(success, output_lines) :=
    match b with
    | Completes _ merged returncode => (Z.eqb returncode 0, map strip merged)
    | Fails merged exn => (false, map strip merged ++ [exn])
    end in
  stop_progress ;;;
  hms' <- get clock_hms ;;
  log_append log_file
    (py "[" ++ hms' ++ py "] " ++ operation ++ py " - "
        ++ (if success then py "SUCCESS" else py "ERROR") ++ nl) ;;;
  log_append log_file
    (py "Full Output:" ++ nl
        ++ join nl (map (fun line => py "  " ++ line) output_lines) ++ nl) ;;;
  (if success
   then print (OK ++ py " " ++ operation ++ py " completed successfully!")
   else
     print (ERR ++ py " " ++ operation ++ py " failed!") ;;;
     print (py "Error details (last 5 lines):") ;;;
     print_all (map (fun line => py "  " ++ line) (last_n 5 output_lines))) ;;;
  ret (success, output_lines).

(** ** Prompts *)

(** A [while True] loop that reads one line per round: [step] handles the
    line and either returns a value or asks for another round.  The loop is
    driven by the lines still to be typed; when none is left, [input] raises
    [EOFError]. *)
Fixpoint input_loop {A} (prompt : str) (step : str -> M (option A))
    (lines : list str) : M A :=
  fun w =>
    match lines with
    | [] => Raised EOFError (add_console prompt w)
    | l :: rest =>
        match step l (set_stdin rest (add_console prompt w)) with
        | Normal (Some a) w' => Normal a w'
        | Normal None w' => input_loop prompt step rest w'
        | Raised e w' => Raised e w'
        | Exited n w' => Exited n w'
        end
    end.

Definition loop_on_input {A} (prompt : str) (step : str -> M (option A)) : M A :=
  fun w => input_loop prompt step (stdin w) w.

(** One round of [confirm]: the line read decides, or the loop goes on. *)
Definition confirm_step (line : str) : M (option bool) :=
  let choice := lower (strip line) in
  if member choice [py "y"; py "yes"] then ret (Some true)
  else if member choice [py "n"; py "no"; []] then ret (Some false)
  else ret None.

(** [confirm(prompt)] *)
Definition confirm (prompt : str) : M bool :=
  loop_on_input (YELLOW ++ prompt ++ py " (y/N): " ++ RESET) confirm_step.

(** What [get_input] does with the line it has read. *)
Definition get_input_line (default line : str) : M str :=
  let result := strip line in
  (if member (lower result) [py "q"; py "quit"] then cleanup true else ret tt) ;;;
  ret (match result with [] => default | _ => result end).

(** [get_input(prompt, default)] *)
Definition get_input (prompt default : str) : M str :=
  line <- input (CYAN ++ prompt ++ py ": " ++ RESET) ;;
  get_input_line default line.

Definition password_chars : str :=
  py "abcdefghijklmnopqrstuvwxyzABCDEFGHIJKLMNOPQRSTUVWXYZ0123456789".

Fixpoint random_chars (n : nat) : M str :=
  match n with
  | O => ret []
  | S k => c <- random_choice password_chars ;; r <- random_chars k ;; ret (c :: r)
  end.

(** [get_password(prompt, salt)] *)
Definition get_password (prompt salt : str) : M str :=
  line <- input (CYAN ++ prompt ++ py " [Press Enter to auto-generate]: " ++ RESET) ;;
  let pwd := strip line in
  match pwd with
  | [] =>
      suffix <- random_chars 12 ;;
      print (INFO ++ py " Generated password.") ;;;
      ret (salt ++ py "_" ++ suffix)
  | _ => ret pwd
  end.

Definition custom_path_prompt (default_path : str) : str :=
  py "Enter custom destination path (max 2 levels). Default: '" ++ default_path
  ++ py "'" ++ nl ++ py "Example: my_projects/personal_backups" ++ nl
  ++ py "[Press Enter for default]: ".

(** One round of [get_custom_destination_path]. *)
Definition custom_path_step (default_path line : str) : M (option str) :=
  r <- get_input_line [] line ;;
  let path := strip_slash r in
  match path with
  | [] => ret (Some default_path)
  | _ =>
      if (2 <? List.length (split slash path))%nat then
        print (ERR ++ py " Path cannot be more than two levels deep. Please try again.") ;;;
        ret None
      else ret (Some path)
  end.

(** [get_custom_destination_path(default_path)] *)
Definition get_custom_destination_path (default_path : str) : M str :=
  loop_on_input (CYAN ++ custom_path_prompt default_path ++ py ": " ++ RESET)
                (custom_path_step default_path).

(** ** Paths *)

(** [posixpath.join] on two components. *)
Definition path_join2 (path b : str) : str :=
  if startswith b [slash] then b
  else if match path with [] => true | _ => false end || endswith path [slash]
       then path ++ b
       else path ++ [slash] ++ b.

(** [os.path.join(a, *p)] *)
Definition os_path_join (a : str) (p : list str) : str := fold_left path_join2 p a.

(** [os.path.basename(p)]: what follows the last slash. *)
Definition os_path_basename (p : str) : str := last (split slash p) [].

(** [f"/run/media/{os.getenv('USER')}"] *)
Definition media_root : M str :=
  u <- get env_USER ;;
  ret (py "/run/media/" ++ match u with Some name => name | None => py "None" end).

(** ** The two strategies *)

Record ResultData : Type := mkResult {
  destination : str;
  summary : list str
}.

Definition secure_keywords : list str :=
  [py "files"; py "dirs"; py "added"; py "processed"; py "snapshot"].

Definition restic_probe_cmd (repo_path : str) : str :=
  py "restic --repo '" ++ repo_path ++ py "' snapshots --last 1".

Definition restic_init_cmd (repo_path : str) : str :=
  py "restic --repo '" ++ repo_path ++ py "' init".

Definition restic_backup_cmd (src_path repo_path : str) : str :=
  py "restic backup '" ++ src_path ++ py "' --repo '" ++ repo_path ++ py "' --verbose".

Definition secure_repo_path (dest_type dest_value custom_path repo : str) : M str :=
  if PyStr.eqb dest_type (py "cloud") then
    ret (py "rclone:" ++ dest_value ++ py ":" ++ custom_path ++ py "/" ++ repo)
  else
    root <- media_root ;;
    let disk_base_path := os_path_join root [dest_value] in
    ret (os_path_join disk_base_path [custom_path; repo]).

(** [handle_secure_backup(src_path, normalized_name, password, dest_type,
    dest_value, log_file)] *)
Definition handle_secure_backup
    (src_path normalized_name password dest_type dest_value log_file : str)
    : M (bool * option ResultData) :=
  custom_path <- get_custom_destination_path (py "manual_nas_encrypted") ;;
  let repo := repo_name normalized_name in
  repo_path <- secure_repo_path dest_type dest_value custom_path repo ;;
  print (nl ++ INFO ++ py " Secure Backup Repository: " ++ repo_path) ;;;
  modify (set_backup_password repo_path password) ;;;
  let env_vars := [(py "RESTIC_PASSWORD", password)] in
  probe <- run_cmd (restic_probe_cmd repo_path) env_vars ;;
  let repo_exists := fst probe in
  let backup_type := if repo_exists then py "Incremental" else py "Initial" in
  proceed <- confirm (py "Proceed with " ++ backup_type ++ py " backup to "
                         ++ dest_value ++ py "?") ;;
  if negb proceed then ret (false, None) else
  initialised <-
    (if negb repo_exists then
       r <- run_cmd_with_progress (restic_init_cmd repo_path)
              (py "Initializing repo on " ++ dest_value) log_file env_vars ;;
       ret (fst r)
     else ret true) ;;
  if negb initialised then ret (false, None) else
  r <- run_cmd_with_progress (restic_backup_cmd src_path repo_path)
         (backup_type ++ py " backup to " ++ dest_value) log_file env_vars ;;
  let '(success, output) := r in
  let summary :=
    filter (fun line => existsb (fun k => contains k (lower line)) secure_keywords)
           (last_n 10 output) in
  ret (success, Some (mkResult repo_path summary)).

Definition rclone_lsd_cmd (project_path : str) : str :=
  py "rclone lsd '" ++ project_path ++ py "'".

Definition rclone_copy_cmd (src_path project_path : str) : str :=
  py "rclone copy '" ++ src_path ++ py "' '" ++ project_path
  ++ py "' --progress --update --create-empty-src-dirs".

Definition simple_project_path (dest_type dest_value custom_path leaf : str) : M str :=
  if PyStr.eqb dest_type (py "cloud") then
    ret (dest_value ++ py ":" ++ custom_path ++ py "/" ++ leaf)
  else
    root <- media_root ;;
    let disk_base_path := os_path_join root [dest_value] in
    ret (os_path_join disk_base_path [custom_path; leaf]).

(** [handle_simple_copy(src_path, normalized_name, dest_type, dest_value,
    log_file)] *)
Definition handle_simple_copy
    (src_path normalized_name dest_type dest_value log_file : str)
    : M (bool * option ResultData) :=
  custom_path <- get_custom_destination_path (py "manual_nas_backup") ;;
  let leaf := backup_name normalized_name in
  project_path0 <- simple_project_path dest_type dest_value custom_path leaf ;;
  probe <- run_cmd (rclone_lsd_cmd project_path0) [] ;;
  project_path <-
    (if fst probe then
       print (WARN ++ py " A folder for '" ++ leaf
                   ++ py "' already exists at the destination.") ;;;
       merge <- confirm (py "Do you want to merge/update files into it? (N creates a duplicated folder)") ;;
       if negb merge then
         ymd <- get clock_ymd ;;
         let p := project_path0 ++ py "_duplicated_" ++ ymd in
         print (INFO ++ py " A new folder will be used: " ++ os_path_basename p) ;;;
         ret p
       else ret project_path0
     else ret project_path0) ;;
  proceed <- confirm (py "Proceed with simple copy to " ++ dest_value ++ py "?") ;;
  if negb proceed then ret (false, None) else
  r <- run_cmd_with_progress (rclone_copy_cmd src_path project_path)
         (py "Simple copy to " ++ dest_value) log_file [] ;;
  let '(success, output) := r in
  let summary_lines :=
    filter (fun line => contains (py "Transferred") line
                        || contains (py "Errors") line
                        || contains (py "Checks") line) output in
  let summary :=
    match summary_lines with
    | [] => [py "No summary available."]
    | _ => last_n 3 summary_lines
    end in
  ret (success, Some (mkResult project_path summary)).

(** ** Destinations *)

Definition Destination : Type := (str * str)%type.

Definition is_cloud (d : Destination) : bool := PyStr.eqb (fst d) (py "cloud").
Definition is_disk (d : Destination) : bool := PyStr.eqb (fst d) (py "disk").

(** [list.sort(key=...)] with a boolean key: a stable sort, [False] before
    [True].  An element is inserted before the first element whose key is
    not smaller than its own. *)
Fixpoint insert_by_key {A} (key : A -> bool) (x : A) (l : list A) : list A :=
  match l with
  | [] => [x]
  | y :: r =>
      if key x && negb (key y) then y :: insert_by_key key x r
      else x :: l
  end.

Fixpoint sort_by_key {A} (key : A -> bool) (l : list A) : list A :=
  match l with
  | [] => []
  | x :: r => insert_by_key key x (sort_by_key key r)
  end.

(** [destinations.sort(key=lambda x: x[0] == 'cloud')] *)
Definition sort_destinations (destinations : list Destination) : list Destination :=
  sort_by_key is_cloud destinations.

(** [l[i]] with Python's negative indices; [None] stands for [IndexError]. *)
Definition py_index {A} (l : list A) (i : Z) : option A :=
  if (0 <=? i)%Z then nth_error l (Z.to_nat i)
  else if (0 <=? Z.of_nat (List.length l) + i)%Z
       then nth_error l (Z.to_nat (Z.of_nat (List.length l) + i))
       else None.

(** The secondary selection: [candidates[int(choice) - 1]], skipped with a
    warning on [ValueError] or [IndexError]. *)
Definition pick_secondary (kind : string) (candidates : list str) (choice : str)
    (destinations : list Destination) : M (list Destination) :=
  match py_int choice with
  | Some n =>
      match py_index candidates (n - 1) with
      | Some v => ret (destinations ++ [(py kind, v)])
      | None => print (WARN ++ py " Invalid selection. Skipping.") ;;; ret destinations
      end
  | None => print (WARN ++ py " Invalid selection. Skipping.") ;;; ret destinations
  end.

Fixpoint print_numbered (show : str -> str) (l : list str) : M unit :=
  match l with
  | [] => ret tt
  | x :: r => print (show x) ;;; print_numbered show r
  end.

(** Lines 356 to 372 of [main]: the primary destination, the optional
    secondary one of the other kind, and the final sort.  The numbers printed
    in front of the candidates are left out of the console text. *)
Definition resolve_destinations (primary : Destination)
    (disks configured_remotes : list str) : M (list Destination) :=
  let destinations := [primary] in
  let primary_type := fst primary in
  destinations <-
    (if PyStr.eqb primary_type (py "disk")
        && match configured_remotes with [] => false | _ => true end
     then
       more <- confirm (py "Also back up to a cloud remote?") ;;
       if more then
         print (nl ++ BOLD ++ [9729; 65039] ++ py " Select SECONDARY cloud destination:" ++ RESET) ;;;
         print_numbered (fun r => py ") " ++ r) configured_remotes ;;;
         remote_choice <- get_input (py "Select a cloud remote") [] ;;
         pick_secondary "cloud" configured_remotes remote_choice destinations
       else ret destinations
     else if PyStr.eqb primary_type (py "cloud")
             && match disks with [] => false | _ => true end
     then
       more <- confirm (py "Also back up to an external disk?") ;;
       if more then
         print (nl ++ BOLD ++ [128189] ++ py " Select SECONDARY disk destination:" ++ RESET) ;;;
         print_numbered (fun d => py ") " ++ d) disks ;;;
         disk_choice <- get_input (py "Select a disk") [] ;;
         pick_secondary "disk" disks disk_choice destinations
       else ret destinations
     else ret destinations) ;;
  ret (sort_destinations destinations).

(** ** The per-destination loop of [main] *)




End Tool.

(** * More of the script *)

(** ** Numbers as text *)

(** [str(n)] for an integer. *)
Definition py_str_of_int (z : Z) : str := py (NilZero.string_of_int (Z.to_int z)).

Definition py_str_of_nat (n : nat) : str := py_str_of_int (Z.of_nat n).

(** [f"{n:02d}"]: the sign, then zeros up to a width of 2, then the digits. *)
Definition format_02d (n : Z) : str :=
  let digits := py_str_of_int (Z.abs n) in
  let sign := if (n <? 0)%Z then py "-" else [] in
  sign ++ repeat 48 (2 - List.length sign - List.length digits)%nat ++ digits.

(** [format_time(seconds)], on the integer [int(seconds)]. *)
Definition format_time (seconds : Z) : str :=
  let m := (seconds / 60)%Z in
  let s := (seconds mod 60)%Z in
  let h := (m / 60)%Z in
  let m := (m mod 60)%Z in
  format_02d h ++ py ":" ++ format_02d m ++ py ":" ++ format_02d s.

(** ** Pre-flight checks *)

Definition required_tools : list (str * str) :=
  [(py "restic", py "https://restic.readthedocs.io");
   (py "rclone", py "https://rclone.org/install/")].

(** [check_tools()]; [which tool] tells whether [shutil.which(tool)] finds
    the tool. *)
Definition check_tools (which : str -> bool) : M bool :=
  print (INFO ++ py " Checking for required tools...") ;;;
  if forallb (fun t => which (fst t)) required_tools then
    print (OK ++ py " All tools are installed.") ;;;
    ret true
  else
    print_all
      (map (fun t => ERR ++ py " Tool not found: " ++ fst t ++ py ". See: " ++ snd t)
           (filter (fun t => negb (which (fst t))) required_tools)) ;;;
    sys_exit 1%Z.

Definition colon : char := 58.
Definition newline : char := 10.

(** [s.rstrip(":")] *)
Definition rstrip_colon (s : str) : str :=
  rev (dropwhile (char_eqb colon) (rev s)).

Definition is_blank (s : str) : bool :=
  match strip s with
  | [] => true
  | _ :: _ => false
  end.

(** [check_rclone_config()] *)
Definition check_rclone_config : M (list str) :=
  print (INFO ++ py " Checking rclone configuration...") ;;;
  r <- run_cmd (py "rclone listremotes") [] ;;
  let '(success, remotes) := r in
  if negb success || match remotes with [] => true | _ :: _ => false end then
    print (nl ++ WARN ++ py " Rclone has no configured cloud remotes.") ;;;
    ret []
  else
    print (OK ++ py " Rclone is configured.") ;;;
    ret (map rstrip_colon
             (filter (fun r => negb (is_blank r)) (split newline remotes))).

(** ** The primary destination *)

(** A [dict] with string keys, in insertion order. *)
Definition Dict (V : Type) : Type := list (str * V).

(** [d[k] = v] *)
Fixpoint dict_set {V} (k : str) (v : V) (d : Dict V) : Dict V :=
  match d with
  | [] => [(k, v)]
  | (k', v') :: r =>
      if PyStr.eqb k' k then (k', v) :: r else (k', v') :: dict_set k v r
  end.

(** [d.get(k)]: [None] when [k not in d]. *)
Fixpoint dict_get {V} (k : str) (d : Dict V) : option V :=
  match d with
  | [] => None
  | (k', v') :: r => if PyStr.eqb k' k then Some v' else dict_get k r
  end.

(** The candidates with the numbers shown in front of them. *)
Fixpoint number_from (idx : nat) (names : list str) : list (nat * str) :=
  match names with
  | [] => []
  | name :: r => (idx, name) :: number_from (S idx) r
  end.

Definition add_options (kind : string) (numbered : list (nat * str))
    (options : Dict Destination) : Dict Destination :=
  fold_left (fun o e => dict_set (py_str_of_nat (fst e)) (py kind, snd e) o)
            numbered options.

(** Lines 346 to 356 of [main]: the disks, then the remotes, are numbered
    from 1 and listed; the number typed selects the primary destination. *)
Definition select_primary (lower : str -> str) (disks configured_remotes : list str)
    : M (list Destination) :=
  let numbered_disks := number_from 1 disks in
  let numbered_remotes := number_from (1 + List.length disks) configured_remotes in
  let options :=
    add_options "cloud" numbered_remotes (add_options "disk" numbered_disks []) in
  print_all (map (fun e => GREEN ++ py_str_of_nat (fst e) ++ py ") External Disk: "
                                 ++ snd e ++ RESET) numbered_disks) ;;;
  print_all (map (fun e => BLUE ++ py_str_of_nat (fst e) ++ py ") Cloud Remote: "
                                ++ snd e ++ RESET) numbered_remotes) ;;;
  match options with
  | [] => print (ERR ++ py " No destinations found.") ;;; sys_exit 1%Z
  | _ :: _ =>
      dest_choice <- get_input lower (py "Select a destination") [] ;;
      match dict_get dest_choice options with
      | None => print (ERR ++ py " Invalid selection.") ;;; sys_exit 1%Z
      | Some d => ret [d]
      end
  end.

(** * Definitions used in the statements *)






(** Some cloud destination stands in front of some disk destination. *)
Fixpoint cloud_before_disk (l : list Destination) : bool :=
  match l with
  | [] => false
  | d :: r => (is_cloud d && existsb is_disk r) || cloud_before_disk r
  end.

Definition quit_words : list str := [py "q"; py "quit"].

(** The line is "q" or "quit" in some letter case, white space around it
    aside. *)
Definition is_quit_line (line : str) : bool :=
  member (map ascii_lower (strip line)) quit_words.

Definition is_alnum (c : char) : bool := is_upper c || is_lower c || is_digit c.

(** Segments of a path that are not empty. *)
Definition nonempty_segments (path : str) : nat :=
  List.length (filter (fun seg => match seg with [] => false | _ => true end)
                      (split slash path)).

Definition confirm_prompt (prompt : str) : str :=
  YELLOW ++ prompt ++ py " (y/N): " ++ RESET.

Definition input_prompt (prompt : str) : str := CYAN ++ prompt ++ py ": " ++ RESET.

Definition too_deep_message : str :=
  ERR ++ py " Path cannot be more than two levels deep. Please try again.".

(** A world for examples: the user [ana] types [lines]; every command
    completes with return code 0 and no output. *)
Definition quiet_shell : list Event -> str -> ProcBehaviour :=
  fun _ _ => Completes [] [] 0%Z.

Definition demo_world (lines : list str) : World :=
  mkWorld lines [] [] quiet_shell (fun n => n) 0 (Some (py "ana"))
          (py "10:00:00") (py "20240101") [] [].

Definition returned {A} (o : Outcome A) : option A :=
  match o with
  | Normal a _ => Some a
  | _ => None
  end.

Definition world_of {A} (o : Outcome A) : World :=
  match o with
  | Normal _ w | Raised _ w | Exited _ w => w
  end.

Definition exit_code {A} (o : Outcome A) : option Z :=
  match o with
  | Exited n _ => Some n
  | _ => None
  end.

Definition executing_entry (w : World) (log_file cmd : str) : Event :=
  EvLog log_file (py "[" ++ clock_hms w ++ py "] Executing: " ++ cmd ++ nl).


Definition succeeded (b : ProcBehaviour) : bool :=
  match b with
  | Completes _ _ returncode => Z.eqb returncode 0
  | Fails _ _ => false
  end.

(** The commands run so far, oldest first. *)
Definition exec_cmds (evs : list Event) : list str :=
  flat_map (fun e => match e with
                     | EvExec cmd _ => [cmd]
                     | EvLog _ _ => []
                     end) evs.

(** What the streamed runner returns for a process. *)
Definition streamed_result (b : ProcBehaviour) : bool * list str :=
  match b with
  | Completes _ merged returncode => (Z.eqb returncode 0, map strip merged)
  | Fails merged exn => (false, map strip merged ++ [exn])
  end.

(** The repository path, from the user name of the world. *)
Definition repo_path_of (user : option str) (dest_type dest_value custom_path repo : str)
    : str :=
  if PyStr.eqb dest_type (py "cloud") then
    py "rclone:" ++ dest_value ++ py ":" ++ custom_path ++ py "/" ++ repo
  else
    os_path_join
      (os_path_join (py "/run/media/" ++ match user with
                                         | Some name => name
                                         | None => py "None"
                                         end) [dest_value])
      [custom_path; repo].

Definition proceed_question (backup_type dest_value : str) : str :=
  py "Proceed with " ++ backup_type ++ py " backup to " ++ dest_value ++ py "?".

(** The answer a confirmation prompt reads off one line, if any. *)
Definition answer_of (lower : str -> str) (line : str) : option bool :=
  let choice := lower (strip line) in
  if member choice [py "y"; py "yes"] then Some true
  else if member choice [py "n"; py "no"; []] then Some false
  else None.

Definition no_answer (lower : str -> str) (line : str) : bool :=
  match answer_of lower line with
  | None => true
  | Some _ => false
  end.

(** How an interactive call may end: with a value that satisfies [P], with
    [EOFError] when the input ran out, or with exit code 0 on the quit
    word. *)
Definition ends_well {A} (P : A -> Prop) (o : Outcome A) : Prop :=
  match o with
  | Normal a _ => P a
  | Raised e _ => e = EOFError
  | Exited n _ => n = 0%Z
  end.

(** A path the custom path prompt may hand back besides the default. *)
Definition relative_two_levels (p : str) : Prop :=
  p <> [] /\ startswith p [slash] = false /\ endswith p [slash] = false
  /\ (List.length (split slash p) <= 2)%nat.

Definition invalid_selection_message : str := WARN ++ py " Invalid selection. Skipping.".

(** The folder of the simple strategy, from the user name of the world. *)
Definition project_path_of (user : option str)
    (dest_type dest_value custom_path leaf : str) : str :=
  if PyStr.eqb dest_type (py "cloud") then
    dest_value ++ py ":" ++ custom_path ++ py "/" ++ leaf
  else
    os_path_join
      (os_path_join (py "/run/media/" ++ match user with
                                         | Some name => name
                                         | None => py "None"
                                         end) [dest_value])
      [custom_path; leaf].

(** What a strategy may return: a failure without data, or data whose
    destination satisfies [P]. *)
Definition strategy_result (P : str -> Prop) (r : bool * option ResultData) : Prop :=
  match snd r with
  | Some d => P (destination d)
  | None => fst r = false
  end.



Definition merge_question : str :=
  py "Do you want to merge/update files into it? (N creates a duplicated folder)".

Definition folder_exists_warning (leaf : str) : str :=
  WARN ++ py " A folder for '" ++ leaf ++ py "' already exists at the destination.".

Definition new_folder_notice (project_path : str) : str :=
  INFO ++ py " A new folder will be used: " ++ os_path_basename project_path.

Definition proceed_copy_question (dest_value : str) : str :=
  py "Proceed with simple copy to " ++ dest_value ++ py "?".



(** The lines of the remote listing that name a remote. *)
Definition remote_lines (listing : str) : list str :=
  filter (fun r => negb (is_blank r)) (split newline listing).

(** A number below 100 written with two digits. *)
Definition two_digits (k : Z) : str :=
  [Z.to_N (48 + k / 10); Z.to_N (48 + k mod 10)].

Definition tool_missing_line (tool url : str) : str :=
  ERR ++ py " Tool not found: " ++ tool ++ py ". See: " ++ url.

(** The destinations in the order in which they are listed and numbered. *)
Definition listed_destinations (disks configured_remotes : list str)
    : list Destination :=
  map (fun d => (py "disk", d)) disks
  ++ map (fun r => (py "cloud", r)) configured_remotes.

(** * Properties *)

(** ** Character classes on ASCII, by enumeration *)





(** ** Lists filtered and stripped *)

Lemma filter_all {A} (p : A -> bool) (l : list A) :
  forallb p l = true -> filter p l = l.
Proof.
  induction l as [|x l IH]; simpl; [reflexivity|].
  intro H. apply andb_true_iff in H. destruct H as [Hx Hl].
  rewrite Hx. now rewrite IH.
Qed.


Lemma forallb_filter_self {A} (p : A -> bool) (l : list A) :
  forallb p (filter p l) = true.
Proof.
  induction l as [|x l IH]; simpl; [reflexivity|].
  destruct (p x) eqn:E; simpl; [rewrite E|]; auto.
Qed.


Lemma forallb_rev {A} (q : A -> bool) (l : list A) :
  forallb q l = true -> forallb q (rev l) = true.
Proof.
  rewrite !forallb_forall. intros H x Hx. apply H. now apply in_rev.
Qed.




Lemma dropwhile_all (p : char -> bool) (s : str) :
  forallb p s = true -> dropwhile p s = [].
Proof.
  induction s as [|c s IH]; simpl; [reflexivity|].
  intro H. apply andb_true_iff in H. destruct H as [Hc Hs].
  rewrite Hc. auto.
Qed.

Lemma strip_class_all (p : char -> bool) (s : str) :
  forallb p s = true -> strip_class p s = [].
Proof.
  intro H. unfold strip_class. now rewrite (dropwhile_all p s H).
Qed.

Lemma forallb_impl {A} (p q : A -> bool) (l : list A) :
  (forall x, p x = true -> q x = true) ->
  forallb p l = true -> forallb q l = true.
Proof.
  intros Hpq. rewrite !forallb_forall. auto.
Qed.

(** ** Runs of separators *)




(** ** Name normalization *)

Section NormalizeProperties.

Variable nfkd : str -> str.
Variable lower : str -> str.

(** On ASCII text, NFKD changes nothing and [str.lower] lowers each letter. *)
Hypothesis nfkd_ascii :
  forall s, forallb is_ascii s = true -> nfkd s = s.
Hypothesis lower_ascii :
  forall s, forallb is_ascii s = true -> lower s = map ascii_lower s.








End NormalizeProperties.


Lemma plain_lower_ascii (s : str) :
  forallb is_ascii s = true -> plain_lower s = map ascii_lower s.
Proof. reflexivity. Qed.




(** ** Destination ordering *)

Lemma insert_by_key_false {A} (key : A -> bool) (x : A) (l : list A) :
  key x = false -> insert_by_key key x l = x :: l.
Proof. intro H. destruct l; simpl; [reflexivity|]. now rewrite H. Qed.

Lemma insert_by_key_true {A} (key : A -> bool) (x : A) (a b : list A) :
  key x = true ->
  forallb (fun y => negb (key y)) a = true -> forallb key b = true ->
  insert_by_key key x (a ++ b) = a ++ x :: b.
Proof.
  intros Hx Ha Hb. induction a as [|y a IH]; simpl in *.
  - destruct b as [|z b]; simpl in *; [reflexivity|].
    apply andb_true_iff in Hb. destruct Hb as [Hz _].
    now rewrite Hz, andb_false_r.
  - apply andb_true_iff in Ha. destruct Ha as [Hy Ha].
    rewrite Hx, Hy. simpl. now rewrite IH.
Qed.

Lemma sort_by_key_partition {A} (key : A -> bool) (l : list A) :
  sort_by_key key l = filter (fun y => negb (key y)) l ++ filter key l.
Proof.
  induction l as [|x l IH]; simpl; [reflexivity|].
  rewrite IH. destruct (key x) eqn:E; simpl.
  - apply insert_by_key_true; auto using forallb_filter_self.
  - now apply insert_by_key_false.
Qed.

Lemma is_disk_not_cloud (d : Destination) : is_disk d = true -> is_cloud d = false.
Proof.
  unfold is_disk, is_cloud. destruct d as [k v]. simpl.
  destruct k as [|c k]; [discriminate|].
  unfold py. simpl. unfold char_eqb.
  destruct (N.eqb_spec c 100); [subst; reflexivity | discriminate].
Qed.

Lemma cloud_before_disk_app (a b : list Destination) :
  forallb (fun d => negb (is_cloud d)) a = true ->
  forallb is_cloud b = true ->
  cloud_before_disk (a ++ b) = false.
Proof.
  intros Ha Hb. induction a as [|d a IH]; simpl in *.
  - induction b as [|d b IHb]; simpl in *; [reflexivity|].
    apply andb_true_iff in Hb. destruct Hb as [Hd Hb].
    rewrite (IHb Hb), orb_false_r. apply andb_false_iff. right.
    clear IHb Hd. induction b as [|e b IHe]; simpl in *; [reflexivity|].
    apply andb_true_iff in Hb. destruct Hb as [He Hb].
    rewrite (IHe Hb), orb_false_r.
    destruct (is_disk e) eqn:Ed; [|reflexivity].
    apply is_disk_not_cloud in Ed. congruence.
  - apply andb_true_iff in Ha. destruct Ha as [Hd Ha].
    apply negb_true_iff in Hd. rewrite Hd. simpl. auto.
Qed.

Lemma filter_filter_same {A} (p : A -> bool) (l : list A) :
  filter p (filter p l) = filter p l.
Proof. apply filter_all, forallb_filter_self. Qed.

Lemma filter_none {A} (p : A -> bool) (l : list A) :
  forallb (fun x => negb (p x)) l = true -> filter p l = [].
Proof.
  induction l as [|x l IH]; simpl; [reflexivity|].
  intro H. apply andb_true_iff in H. destruct H as [Hx Hl].
  apply negb_true_iff in Hx. rewrite Hx. auto.
Qed.

Lemma bind_ret_normal {A B} (c : M A) (f : A -> B) (w w' : World) (b : B) :
  bind c (fun x => ret (f x)) w = Normal b w' -> exists a, b = f a.
Proof.
  unfold bind, ret. destruct (c w); intro H; inversion H. eauto.
Qed.

(** C5. After the final sort no cloud destination stands in front of a disk
    destination, whatever the order of selection; the sort is stable: the
    disk destinations keep their relative order, and so do the cloud ones
    (the sorted list is the disk-side entries in their order followed by the
    cloud entries in theirs).  The list [resolve_destinations] returns, the
    primary destination with the optional secondary one, is sorted in this
    way. *)
Theorem sort_destinations_disk_first (lower : str -> str) (py_int : str -> option Z)
    (destinations : list Destination) (primary : Destination)
    (disks remotes : list str) (disk remote : str) (w : World) :
  cloud_before_disk (sort_destinations destinations) = false
  /\ sort_destinations destinations
     = filter (fun d => negb (is_cloud d)) destinations
       ++ filter is_cloud destinations
  /\ filter is_cloud (sort_destinations destinations) = filter is_cloud destinations
  /\ filter is_disk (sort_destinations destinations) = filter is_disk destinations
  /\ sort_destinations [(py "cloud", remote); (py "disk", disk)]
     = [(py "disk", disk); (py "cloud", remote)]
  /\ sort_destinations [(py "disk", disk); (py "cloud", remote)]
     = [(py "disk", disk); (py "cloud", remote)]
  /\ match resolve_destinations lower py_int primary disks remotes w with
     | Normal l _ => cloud_before_disk l = false
     | _ => True
     end.
Proof.
  unfold sort_destinations.
  assert (Hs := sort_by_key_partition is_cloud destinations).
  split; [|split; [|split; [|split; [|split; [|split]]]]].
  - rewrite Hs. apply cloud_before_disk_app; apply forallb_filter_self.
  - exact Hs.
  - rewrite Hs, filter_app, filter_filter_same.
    rewrite filter_none; [reflexivity|]. apply forallb_filter_self.
  - rewrite Hs, filter_app.
    rewrite (filter_none is_disk (filter is_cloud destinations)).
    + rewrite app_nil_r.
      induction destinations as [|d l IH]; simpl; [reflexivity|].
      assert (IH' : filter is_disk (filter (fun d0 => negb (is_cloud d0)) l)
                    = filter is_disk l).
      { apply IH. apply sort_by_key_partition. }
      destruct (is_disk d) eqn:Ed.
      * rewrite (is_disk_not_cloud d Ed). simpl. rewrite Ed. now f_equal.
      * destruct (is_cloud d); simpl; rewrite ?Ed; auto.
    + eapply forallb_impl; [|apply forallb_filter_self].
      intros d Hd. apply negb_true_iff.
      destruct (is_disk d) eqn:Ed; [|reflexivity].
      apply is_disk_not_cloud in Ed. congruence.
  - reflexivity.
  - reflexivity.
  - destruct (resolve_destinations lower py_int primary disks remotes w)
      as [l w' | |] eqn:E; [|exact I|exact I].
    unfold resolve_destinations in E.
    apply bind_ret_normal in E. destruct E as [ds ->].
    unfold sort_destinations. rewrite sort_by_key_partition.
    apply cloud_before_disk_app; apply forallb_filter_self.
Qed.

(** ** Prompts *)

Lemma str_eqb_eq (a b : str) : PyStr.eqb a b = true -> a = b.
Proof.
  revert b. induction a as [|x a IH]; destruct b as [|y b]; simpl;
    try discriminate; [reflexivity|].
  intro H. apply andb_true_iff in H. destruct H as [Hx Hab].
  apply N.eqb_eq in Hx. subst. f_equal. auto.
Qed.

Lemma str_eqb_refl (a : str) : PyStr.eqb a a = true.
Proof.
  induction a as [|x a IH]; simpl; [reflexivity|].
  unfold char_eqb. now rewrite N.eqb_refl.
Qed.

Lemma member_in (x : str) (l : list str) : member x l = true -> In x l.
Proof.
  unfold member. intro H. apply existsb_exists in H.
  destruct H as [y [Hy E]]. apply str_eqb_eq in E. now subst.
Qed.

Lemma ascii_lower_ascii (s : str) :
  forallb is_ascii (map ascii_lower s) = true -> forallb is_ascii s = true.
Proof.
  induction s as [|c s IH]; simpl; [reflexivity|].
  intro H. apply andb_true_iff in H. destruct H as [Hc Hs].
  rewrite (IH Hs), andb_true_r.
  unfold is_ascii, ascii_lower in *. apply N.ltb_lt in Hc. apply N.ltb_lt.
  destruct (is_upper c); lia.
Qed.

Lemma random_choice_alnum (w : World) :
  exists c,
    random_choice password_chars w = Normal c (set_rand_pos (S (rand_pos w)) w)
    /\ is_alnum c = true.
Proof.
  eexists. split; [reflexivity|].
  assert (H : forallb is_alnum password_chars = true) by reflexivity.
  rewrite forallb_forall in H. apply H. apply nth_In.
  apply Nat.mod_upper_bound. discriminate.
Qed.

Lemma random_chars_spec (n : nat) (w : World) :
  exists suffix w',
    random_chars n w = Normal suffix w'
    /\ List.length suffix = n
    /\ forallb is_alnum suffix = true
    /\ stdin w' = stdin w /\ console w' = console w /\ events w' = events w.
Proof.
  revert w. induction n as [|n IH]; intro w.
  - exists [], w. repeat split; reflexivity.
  - change (random_chars (S n))
      with (bind (random_choice password_chars)
                 (fun c => bind (random_chars n) (fun r => ret (c :: r)))).
    destruct (random_choice_alnum w) as (c & Ec & Hc).
    destruct (IH (set_rand_pos (S (rand_pos w)) w))
      as (suf & w' & E & L & F & S1 & S2 & S3).
    unfold bind. rewrite Ec, E. unfold ret.
    exists (c :: suf), w'. split; [reflexivity|].
    cbn [List.length forallb]. rewrite L, F, Hc, S1, S2, S3.
    repeat split; reflexivity.
Qed.

Lemma input_cons (prompt l : str) (rest : list str) (w : World) :
  input prompt (set_stdin (l :: rest) w)
  = Normal l (set_stdin rest (add_console prompt w)).
Proof. reflexivity. Qed.

Lemma loop_on_input_cons {A} (prompt : str) (step : str -> M (option A))
    (l : str) (rest : list str) (w : World) :
  loop_on_input prompt step (set_stdin (l :: rest) w)
  = match step l (set_stdin rest (add_console prompt w)) with
    | Normal (Some a) w' => Normal a w'
    | Normal None w' => input_loop prompt step rest w'
    | Raised e w' => Raised e w'
    | Exited n w' => Exited n w'
    end.
Proof. reflexivity. Qed.

Section PromptProperties.

Variable lower : str -> str.

(** C4, as the code has it. On one line of input the confirmation prompt
    returns true exactly when the trimmed, lower-cased line is "y" or "yes";
    it returns false when that is "n", "no" or empty; on any other line it
    does not return: the question is asked again with the lines that
    follow. *)
Theorem confirm_answers (prompt line : str) (rest : list str) (w : World) :
  let choice := lower (strip line) in
  let w' := set_stdin rest (add_console (confirm_prompt prompt) w) in
  confirm lower prompt (set_stdin (line :: rest) w)
  = if member choice [py "y"; py "yes"] then Normal true w'
    else if member choice [py "n"; py "no"; []] then Normal false w'
    else confirm lower prompt w'.
Proof.
  intros choice w'. unfold confirm. fold (confirm_prompt prompt).
  rewrite loop_on_input_cons. unfold confirm_step. fold choice. fold w'.
  destruct (member choice [py "y"; py "yes"]); [reflexivity|].
  destruct (member choice [py "n"; py "no"; []]); reflexivity.
Qed.

(** C8, as the code has it. At the password prompt a line that is empty
    once its surrounding white space is trimmed yields the salt, an
    underscore and 12 characters drawn from the ASCII letters and digits;
    any other line yields its trimmed text as the password. *)
Theorem get_password_rules (prompt salt line : str) (rest : list str) (w : World) :
  match strip line with
  | [] =>
      exists suffix w',
        get_password prompt salt (set_stdin (line :: rest) w)
        = Normal (salt ++ py "_" ++ suffix) w'
        /\ List.length suffix = 12%nat
        /\ forallb is_alnum suffix = true
  | _ :: _ =>
      exists w',
        get_password prompt salt (set_stdin (line :: rest) w)
        = Normal (strip line) w'
  end.
Proof.
  unfold get_password, bind. rewrite !input_cons.
  destruct (strip line) as [|c s] eqn:E.
  - match goal with
    | |- context [random_chars 12 ?w0] =>
        destruct (random_chars_spec 12 w0) as (suf & w' & R & L & F & _)
    end.
    rewrite R. unfold print, modify, ret.
    eexists; eexists. repeat split; eauto.
  - eexists. reflexivity.
Qed.

Hypothesis lower_ascii :
  forall s, forallb is_ascii s = true -> lower s = map ascii_lower s.

Lemma quit_line_lower (line : str) :
  is_quit_line line = true ->
  lower (strip line) = map ascii_lower (strip line)
  /\ member (lower (strip line)) quit_words = true
  /\ (lower (strip line) = py "q" \/ lower (strip line) = py "quit").
Proof.
  unfold is_quit_line. intro H.
  assert (Hin := member_in _ _ H).
  assert (Ha : forallb is_ascii (strip line) = true).
  { apply ascii_lower_ascii.
    destruct Hin as [E | [E | []]]; rewrite <- E; reflexivity. }
  rewrite (lower_ascii _ Ha). repeat split; auto.
  destruct Hin as [E | [E | []]]; rewrite <- E; auto.
Qed.

(** C3, as the code has it. At a general input prompt ([get_input], and
    the custom path prompt built on it) the line "q" or "quit", in any
    letter case, ends the process with exit code 0 after the cancellation
    notice.  The confirmation prompt does not know the word: it asks again.
    The password prompt takes the word as the password. *)
Theorem quit_word_at_prompts (prompt default line : str) (rest : list str)
    (w : World) :
  is_quit_line line = true ->
  let cancelled p :=
    add_console (nl ++ WARN ++ py " Operation cancelled by user.")
                (set_stdin rest (add_console p w)) in
  get_input lower prompt default (set_stdin (line :: rest) w)
    = Exited 0%Z (cancelled (input_prompt prompt))
  /\ get_custom_destination_path lower default (set_stdin (line :: rest) w)
    = Exited 0%Z (cancelled (input_prompt (custom_path_prompt default)))
  /\ confirm lower prompt (set_stdin (line :: rest) w)
    = confirm lower prompt (set_stdin rest (add_console (confirm_prompt prompt) w))
  /\ exists w', get_password prompt default (set_stdin (line :: rest) w)
                = Normal (strip line) w'.
Proof.
  intros Hq cancelled.
  destruct (quit_line_lower line Hq) as (El & Hm & Hw).
  split; [|split; [|split]].
  - unfold get_input, bind. rewrite input_cons. unfold get_input_line, bind.
    fold quit_words. rewrite Hm. reflexivity.
  - unfold get_custom_destination_path. rewrite loop_on_input_cons.
    unfold custom_path_step, get_input_line, bind.
    fold quit_words. rewrite Hm. reflexivity.
  - rewrite confirm_answers. cbv zeta.
    destruct Hw as [E | E]; rewrite E; reflexivity.
  - pose proof (get_password_rules prompt default line rest w) as P.
    destruct (strip line) as [|c s] eqn:E; [|exact P].
    rewrite (lower_ascii [] eq_refl) in Hw.
    destruct Hw; discriminate.
Qed.

(** C2, as the code has it. For a line that is not the quit word: when it
    is empty after trimming white space and then slashes, the default is
    returned; when the trimmed path splits at "/" into at most 2 segments,
    empty ones counted, it is returned as trimmed; when it splits into 3 or
    more segments, which is the case whenever 3 or more of them are not
    empty, the error message is printed and the prompt is run again on the
    lines that follow. *)
Theorem custom_path_rules (default line : str) (rest : list str) (w : World) :
  member (lower (strip line)) quit_words = false ->
  let path := strip_slash (strip line) in
  let w' := set_stdin rest (add_console (input_prompt (custom_path_prompt default)) w) in
  get_custom_destination_path lower default (set_stdin (line :: rest) w)
  = match path with
    | [] => Normal default w'
    | _ :: _ =>
        if (List.length (split slash path) <=? 2)%nat then Normal path w'
        else get_custom_destination_path lower default
               (add_console too_deep_message w')
    end
  /\ ((3 <= nonempty_segments path)%nat ->
      (List.length (split slash path) <=? 2)%nat = false).
Proof.
  intros Hq path w'. split.
  - unfold get_custom_destination_path.
    fold (input_prompt (custom_path_prompt default)).
    rewrite loop_on_input_cons. fold w'.
    unfold custom_path_step, get_input_line, bind.
    fold quit_words. rewrite Hq. unfold ret at 1 2.
    assert (Ep : strip_slash match strip line with
                             | [] => []
                             | _ :: _ => strip line
                             end = path).
    { subst path. destruct (strip line); reflexivity. }
    rewrite Ep. destruct path as [|c' s'] eqn:E'; [reflexivity|].
    destruct (List.length (split slash (c' :: s'))) as [|[|[|n]]] eqn:L;
      reflexivity.
  - intro H. apply Nat.leb_gt. unfold nonempty_segments in H.
    pose proof (filter_length_le
                  (fun seg : str => match seg with [] => false | _ => true end)
                  (split slash path)) as Hle.
    exact (Nat.le_trans _ _ _ H Hle).
Qed.

End PromptProperties.

(** C4 as stated fails: the line "maybe" is not "y" or "yes", and the
    prompt does not return false on it; it asks again, and returns true when
    the next line is "y", or raises [EOFError] when no line follows. *)
Lemma confirm_other_input_counterexample :
  member (plain_lower (strip (py "maybe"))) [py "y"; py "yes"] = false
  /\ returned (confirm plain_lower (py "Continue?")
                 (demo_world [py "maybe"; py "y"])) = Some true
  /\ returned (confirm plain_lower (py "Continue?") (demo_world [py "maybe"]))
     <> Some false.
Proof. repeat split; try reflexivity. vm_compute. discriminate. Qed.

(** C3 as stated fails: "q" at a confirmation prompt does not end the
    process, and "quit" at the password prompt becomes the password. *)
Lemma quit_word_counterexample :
  exit_code (confirm plain_lower (py "Continue?") (demo_world [py "q"; py "y"]))
    <> Some 0%Z
  /\ returned (confirm plain_lower (py "Continue?") (demo_world [py "q"; py "y"]))
     = Some true
  /\ returned (get_password (py "Enter password") (py "docs") (demo_world [py "quit"]))
     = Some (py "quit").
Proof. repeat split; try reflexivity. vm_compute. discriminate. Qed.

(** C3 at the line " QuIt ". *)
Lemma quit_word_at_prompts_witness :
  is_quit_line (py " QuIt ") = true
  /\ exit_code (get_input plain_lower (py "Select a folder") []
                  (set_stdin [py " QuIt "; py "1"] (demo_world [])))
     = Some 0%Z.
Proof.
  split; [reflexivity|].
  rewrite (proj1 (@quit_word_at_prompts plain_lower plain_lower_ascii
                    (py "Select a folder") [] (py " QuIt ") [py "1"]
                    (demo_world []) eq_refl)).
  reflexivity.
Defined.

(** C2 as stated fails: "a//b" has 2 non-empty segments and is rejected
    (the prompt goes on to the next line, here empty, and returns the
    default), and "q" has one segment and ends the process. *)
Lemma custom_path_counterexample :
  nonempty_segments (strip_slash (py "a//b")) = 2%nat
  /\ returned (get_custom_destination_path plain_lower (py "manual_nas_backup")
                 (demo_world [py "a//b"; []]))
     = Some (py "manual_nas_backup")
  /\ existsb (PyStr.eqb too_deep_message)
       (console (world_of (get_custom_destination_path plain_lower
                             (py "manual_nas_backup")
                             (demo_world [py "a//b"; []])))) = true
  /\ nonempty_segments (strip_slash (py "q")) = 1%nat
  /\ exit_code (get_custom_destination_path plain_lower (py "manual_nas_backup")
                  (demo_world [py "q"])) = Some 0%Z.
Proof. repeat split; reflexivity. Qed.

(** C2 at the line " /photos/2024/ ". *)
Lemma custom_path_rules_witness :
  member (plain_lower (strip (py " /photos/2024/ "))) quit_words = false
  /\ returned (get_custom_destination_path plain_lower (py "manual_nas_backup")
                 (set_stdin [py " /photos/2024/ "] (demo_world [])))
     = Some (py "photos/2024").
Proof.
  split; [reflexivity|].
  rewrite (proj1 (@custom_path_rules plain_lower (py "manual_nas_backup")
                    (py " /photos/2024/ ") [] (demo_world []) eq_refl)).
  reflexivity.
Defined.

(** C8 as stated fails: the non-empty line " abc " is not used as it is
    (the password is "abc"), and the non-empty line of two spaces yields a
    generated password. *)
Lemma get_password_counterexample :
  returned (get_password (py "Enter password") (py "docs") (demo_world [py " abc "]))
    = Some (py "abc")
  /\ py "abc" <> py " abc "
  /\ returned (get_password (py "Enter password") (py "docs") (demo_world [py "  "]))
     = Some (py "docs_abcdefghijkl").
Proof. repeat split; try reflexivity. vm_compute. discriminate. Qed.

(** ** The command runner *)

Lemma print_all_spec (l : list str) (w : World) :
  print_all l w = Normal tt (fold_left (fun w0 s => add_console s w0) l w).
Proof.
  revert w. induction l as [|x l IH]; intro w; [reflexivity|].
  cbn [print_all fold_left]. unfold bind, print, modify. apply IH.
Qed.



(** ** The per-destination loop *)






(** ** The secure strategy *)

Lemma exec_cmds_app (a b : list Event) :
  exec_cmds (a ++ b) = exec_cmds a ++ exec_cmds b.
Proof. apply flat_map_app. Qed.

Lemma print_all_console (l : list str) (w : World) :
  print_all l w
  = Normal tt (mkWorld (stdin w) (console w ++ l) (events w) (shell w) (rand w)
                       (rand_pos w) (env_USER w) (clock_hms w) (clock_ymd w)
                       (current_operation w) (backup_passwords w)).
Proof.
  revert w. induction l as [|x l IH]; intro w.
  - rewrite app_nil_r. destruct w; reflexivity.
  - cbn [print_all]. unfold bind, print, modify. rewrite IH.
    cbn [stdin console events shell rand rand_pos env_USER clock_hms clock_ymd
         current_operation backup_passwords add_console].
    now rewrite <- app_assoc.
Qed.

Lemma secure_repo_path_spec (dest_type dest_value custom_path repo : str) (w : World) :
  secure_repo_path dest_type dest_value custom_path repo w
  = Normal (repo_path_of (env_USER w) dest_type dest_value custom_path repo) w.
Proof.
  unfold secure_repo_path, repo_path_of.
  destruct (PyStr.eqb dest_type (py "cloud")); reflexivity.
Qed.

Lemma run_cmd_spec (cmd : str) (env_vars : list (str * str)) (w : World) :
  run_cmd cmd env_vars w
  = Normal (match shell w (events w) cmd with
            | Completes stdout _ returncode => (Z.eqb returncode 0, strip stdout)
            | Fails _ _ => (false, py "Failed to execute command.")
            end) (add_event (EvExec cmd env_vars) w).
Proof.
  unfold run_cmd, bind, launch. destruct (shell w (events w) cmd); reflexivity.
Qed.

Lemma run_cmd_with_progress_spec (cmd operation log_file : str)
    (env_vars : list (str * str)) (w : World) :
  exists w',
    run_cmd_with_progress cmd operation log_file env_vars w
    = Normal (streamed_result
                (shell w (events w ++ [executing_entry w log_file cmd]) cmd)) w'
    /\ exec_cmds (events w') = exec_cmds (events w) ++ [cmd]
    /\ stdin w' = stdin w.
Proof.
  destruct w as [inp con evs sh rnd pos usr hms ymd op pws].
  cbv beta iota delta
    [run_cmd_with_progress bind launch print show_progress stop_progress
     log_append modify get ret executing_entry shell events add_event
     add_console set_current_operation clock_hms stdin console rand
     rand_pos env_USER clock_ymd current_operation backup_passwords
     streamed_result].
  destruct (sh _ cmd) as [out merged rc | merged exn].
  - destruct (Z.eqb rc 0); rewrite ?print_all_console; eexists;
      (split; [reflexivity | ]);
      cbv beta iota delta [events stdin console]; rewrite !exec_cmds_app;
      cbn [exec_cmds flat_map app]; rewrite ?app_nil_r;
      split; reflexivity.
  - rewrite print_all_console. eexists. split; [reflexivity|].
    cbv beta iota delta [events stdin console]. rewrite !exec_cmds_app.
    cbn [exec_cmds flat_map app]. rewrite ?app_nil_r.
    split; reflexivity.
Qed.

(** The prompts run no command. *)
Lemma input_loop_events {A} (prompt : str) (step : str -> M (option A)) :
  (forall l w, events (world_of (step l w)) = events w) ->
  forall lines w, events (world_of (input_loop prompt step lines w)) = events w.
Proof.
  intros Hstep lines. induction lines as [|l rest IH]; intro w; [reflexivity|].
  cbn [input_loop].
  pose proof (Hstep l (set_stdin rest (add_console prompt w))) as H.
  destruct (step l (set_stdin rest (add_console prompt w))) as [[a|] w' | e w' | n w'];
    cbn [world_of] in *; auto.
  rewrite IH. exact H.
Qed.

Lemma confirm_events (lower : str -> str) (prompt : str) (w : World) :
  events (world_of (confirm lower prompt w)) = events w.
Proof.
  unfold confirm, loop_on_input. apply input_loop_events.
  intros l w0. unfold confirm_step.
  destruct (member _ _); [reflexivity|]. destruct (member _ _); reflexivity.
Qed.

Lemma custom_path_events (lower : str -> str) (default : str) (w : World) :
  events (world_of (get_custom_destination_path lower default w)) = events w.
Proof.
  unfold get_custom_destination_path, loop_on_input. apply input_loop_events.
  intros l w0. unfold custom_path_step, get_input_line, bind, cleanup, bind.
  destruct (member _ _); [reflexivity|]. unfold ret at 1 2.
  destruct (strip_slash _); [reflexivity|].
  destruct (2 <? _)%nat; reflexivity.
Qed.

Lemma frame_set_backup_password (k v : str) (w : World) :
  shell (set_backup_password k v w) = shell w
  /\ events (set_backup_password k v w) = events w.
Proof. split; reflexivity. Qed.

Lemma frame_add_console (s : str) (w : World) :
  shell (add_console s w) = shell w /\ events (add_console s w) = events w.
Proof. split; reflexivity. Qed.

Lemma run_cmd_succeeded (cmd : str) (env_vars : list (str * str)) (w : World) :
  exists out,
    run_cmd cmd env_vars w
    = Normal (succeeded (shell w (events w) cmd), out)
             (add_event (EvExec cmd env_vars) w).
Proof.
  rewrite run_cmd_spec. destruct (shell w (events w) cmd); eexists; reflexivity.
Qed.

(** C6. In the secure strategy the repository probe decides the
    classification named in the confirmation question.  When the probe
    succeeds the run is "Incremental" and, once confirmed, only the backup
    command follows the probe: no initialization command is issued.  When
    the probe fails the run is "Initial" and, once confirmed, the
    initialization command runs next; if it fails the destination is given
    up with no backup command, otherwise the backup command follows it.
    Before the confirmation nothing but the probe is run. *)
Theorem secure_strategy_classification (lower : str -> str)
    (src_path normalized_name password dest_type dest_value log_file : str)
    (w : World) :
  let o := handle_secure_backup lower src_path normalized_name password
                                dest_type dest_value log_file w in
  match get_custom_destination_path lower (py "manual_nas_encrypted") w with
  | Normal custom_path w1 =>
      let repo_path := repo_path_of (env_USER w1) dest_type dest_value custom_path
                                    (repo_name normalized_name) in
      let env_vars := [(py "RESTIC_PASSWORD", password)] in
      let probe := restic_probe_cmd repo_path in
      let init := restic_init_cmd repo_path in
      let backup := restic_backup_cmd src_path repo_path in
      let repo_exists := succeeded (shell w1 (events w1) probe) in
      let backup_type := if repo_exists then py "Incremental" else py "Initial" in
      let w2 :=
        add_event (EvExec probe env_vars)
          (set_backup_password repo_path password
             (add_console (nl ++ INFO ++ py " Secure Backup Repository: " ++ repo_path)
                          w1)) in
      events w1 = events w
      /\ match confirm lower (proceed_question backup_type dest_value) w2 with
         | Normal true w3 =>
             if repo_exists then
               exec_cmds (events (world_of o)) = exec_cmds (events w) ++ [probe; backup]
               /\ exists summary,
                    returned o
                    = Some (succeeded
                              (shell w3 (events w3 ++ [executing_entry w3 log_file backup])
                                     backup),
                            Some (mkResult repo_path summary))
             else if succeeded
                       (shell w3 (events w3 ++ [executing_entry w3 log_file init]) init)
             then
               exec_cmds (events (world_of o))
               = exec_cmds (events w) ++ [probe; init; backup]
               /\ exists ok summary,
                    returned o = Some (ok, Some (mkResult repo_path summary))
             else
               exec_cmds (events (world_of o)) = exec_cmds (events w) ++ [probe; init]
               /\ returned o = Some (false, None)
         | Normal false w3 =>
             o = Normal (false, None) w3
             /\ exec_cmds (events w3) = exec_cmds (events w) ++ [probe]
         | Raised e w3 =>
             o = Raised e w3 /\ exec_cmds (events w3) = exec_cmds (events w) ++ [probe]
         | Exited n w3 =>
             o = Exited n w3 /\ exec_cmds (events w3) = exec_cmds (events w) ++ [probe]
         end
  | Raised e w1 => o = Raised e w1 /\ events w1 = events w
  | Exited n w1 => o = Exited n w1 /\ events w1 = events w
  end.
Proof.
  cbv zeta.
  remember (handle_secure_backup lower src_path normalized_name password
              dest_type dest_value log_file w) as o eqn:Ho.
  unfold handle_secure_backup in Ho. unfold bind at 1 in Ho.
  pose proof (custom_path_events lower (py "manual_nas_encrypted") w) as Ev1.
  destruct (get_custom_destination_path lower (py "manual_nas_encrypted") w)
    as [cp w1 | e w1 | n w1]; cbn [world_of] in Ev1; [|split; auto..].
  split; [exact Ev1|].
  unfold bind at 1 in Ho. rewrite secure_repo_path_spec in Ho.
  set (rp := repo_path_of (env_USER w1) dest_type dest_value cp
                          (repo_name normalized_name)) in *.
  unfold bind at 1 in Ho. unfold print at 1 in Ho. unfold modify at 1 in Ho.
  unfold bind at 1 in Ho. unfold modify at 1 in Ho.
  unfold bind at 1 in Ho.
  match type of Ho with
  | context [run_cmd ?c ?e ?w0] =>
      destruct (run_cmd_succeeded c e w0) as [out Hr]; rewrite Hr in Ho; clear Hr
  end.
  rewrite (proj1 (frame_set_backup_password _ _ _)),
          (proj2 (frame_set_backup_password _ _ _)),
          (proj1 (frame_add_console _ _)), (proj2 (frame_add_console _ _)) in Ho.
  cbn [fst] in Ho.
  set (repo_exists := succeeded (shell w1 (events w1) (restic_probe_cmd rp))) in *.
  change (py "Proceed with " ++
          (if repo_exists then py "Incremental" else py "Initial") ++
          py " backup to " ++ dest_value ++ py "?")
    with (proceed_question (if repo_exists then py "Incremental" else py "Initial")
                           dest_value) in Ho.
  set (w2 := add_event (EvExec (restic_probe_cmd rp) [(py "RESTIC_PASSWORD", password)])
               (set_backup_password rp password
                  (add_console (nl ++ INFO ++ py " Secure Backup Repository: " ++ rp)
                               w1))) in *.
  assert (E2 : exec_cmds (events w2) = exec_cmds (events w) ++ [restic_probe_cmd rp]).
  { subst w2. cbn [events add_event]. rewrite exec_cmds_app.
    rewrite (proj2 (frame_set_backup_password _ _ _)),
            (proj2 (frame_add_console _ _)), Ev1.
    reflexivity. }
  unfold bind at 1 in Ho.
  pose proof (confirm_events lower
                (proceed_question (if repo_exists then py "Incremental" else py "Initial")
                                  dest_value) w2) as Ev2.
  destruct (confirm lower _ w2) as [[|] w3 | e w3 | n w3]; cbn [world_of] in Ev2;
    try (rewrite Ev2; split; [exact Ho | exact E2]).
  rewrite <- Ev2 in E2. cbn [negb] in Ho. clearbody repo_exists.
  destruct repo_exists; cbn [negb] in Ho.
  - unfold bind at 1 in Ho. unfold ret at 1 in Ho. cbn [negb] in Ho.
    unfold bind at 1 in Ho.
    destruct (run_cmd_with_progress_spec (restic_backup_cmd src_path rp)
                (py "Incremental" ++ py " backup to " ++ dest_value) log_file
                [(py "RESTIC_PASSWORD", password)] w3) as (w4 & R & C & _).
    rewrite R in Ho. clear R.
    destruct (shell w3 _ (restic_backup_cmd src_path rp)) as [so m rc | m ex];
      cbn [streamed_result succeeded] in *; unfold ret in Ho; subst o;
      cbn [world_of returned]; rewrite C, E2, <- app_assoc;
      (split; [reflexivity | eexists; reflexivity]).
  - unfold bind at 1 2 in Ho.
    destruct (run_cmd_with_progress_spec (restic_init_cmd rp)
                (py "Initializing repo on " ++ dest_value) log_file
                [(py "RESTIC_PASSWORD", password)] w3) as (w4 & R & C & _).
    rewrite R in Ho. clear R.
    assert (F : fst (streamed_result
                       (shell w3 (events w3 ++ [executing_entry w3 log_file (restic_init_cmd rp)])
                              (restic_init_cmd rp)))
                = succeeded (shell w3 (events w3 ++ [executing_entry w3 log_file (restic_init_cmd rp)])
                              (restic_init_cmd rp))).
    { destruct (shell w3 _ (restic_init_cmd rp)); reflexivity. }
    unfold ret at 1 in Ho. rewrite F in Ho. clear F.
    destruct (succeeded (shell w3 _ (restic_init_cmd rp))); cbn [negb] in Ho.
    + unfold bind at 1 in Ho.
      destruct (run_cmd_with_progress_spec (restic_backup_cmd src_path rp)
                  (py "Initial" ++ py " backup to " ++ dest_value) log_file
                  [(py "RESTIC_PASSWORD", password)] w4) as (w5 & R & C' & _).
      rewrite R in Ho. clear R.
      destruct (streamed_result _) as [success output]. unfold ret in Ho. subst o.
      cbn [world_of returned]. rewrite C', C, E2, <- !app_assoc.
      split; [reflexivity | eexists; eexists; reflexivity].
    + unfold ret in Ho. subst o. cbn [world_of returned].
      rewrite C, E2, <- app_assoc. split; reflexivity.
Qed.

(** * Further properties of the script *)

(** ** Confirmation prompts *)

Lemma confirm_cons (lower : str -> str) (prompt line : str) (rest : list str)
    (w : World) :
  confirm lower prompt (set_stdin (line :: rest) w)
  = match answer_of lower line with
    | Some b => Normal b (set_stdin rest (add_console (confirm_prompt prompt) w))
    | None => confirm lower prompt
                (set_stdin rest (add_console (confirm_prompt prompt) w))
    end.
Proof.
  unfold confirm. fold (confirm_prompt prompt). rewrite loop_on_input_cons.
  unfold confirm_step, answer_of.
  destruct (member _ [py "y"; py "yes"]); [reflexivity|].
  destruct (member _ [py "n"; py "no"; []]); reflexivity.
Qed.

Lemma set_stdin_set_stdin (l l' : list str) (w : World) :
  set_stdin l (set_stdin l' w) = set_stdin l w.
Proof. reflexivity. Qed.

Lemma set_stdin_add_console (l l' : list str) (s : str) (w : World) :
  set_stdin l (add_console s (set_stdin l' w)) = set_stdin l (add_console s w).
Proof. reflexivity. Qed.

(** X1. A confirmation prompt returns the answer of the first line it
    recognises: the lines before it that are none of y, yes, n, no or empty
    are read and dropped, each after the question is shown once more, and
    the lines after it stay unread.  When no line is recognised the input
    runs out and [EOFError] is raised. *)
Theorem confirm_first_recognised (lower : str -> str) (prompt : str)
    (skipped : list str) (w : World) :
  forallb (no_answer lower) skipped = true ->
  (forall line b rest,
     answer_of lower line = Some b ->
     exists w',
       confirm lower prompt (set_stdin (skipped ++ line :: rest) w) = Normal b w'
       /\ stdin w' = rest
       /\ events w' = events w
       /\ console w'
          = console w ++ repeat (confirm_prompt prompt) (S (List.length skipped)))
  /\ exists w', confirm lower prompt (set_stdin skipped w) = Raised EOFError w'
                /\ stdin w' = [].
Proof.
  revert w. induction skipped as [|l skipped IH]; intros w Hs.
  - split.
    + intros line b rest Hb. cbn [app]. rewrite confirm_cons, Hb.
      eexists. repeat split.
    + eexists. split; reflexivity.
  - cbn [forallb] in Hs. apply andb_true_iff in Hs. destruct Hs as [Hl Hs].
    unfold no_answer in Hl. destruct (answer_of lower l) eqn:El; [discriminate|].
    split.
    + intros line b rest Hb. cbn [app]. rewrite confirm_cons, El.
      rewrite <- (set_stdin_add_console (skipped ++ line :: rest) (l :: skipped ++ line :: rest)).
      destruct (IH (add_console (confirm_prompt prompt)
                      (set_stdin (l :: skipped ++ line :: rest) w)) Hs)
        as [H _].
      destruct (H line b rest Hb) as (w' & E & S1 & S2 & S3).
      exists w'. rewrite E. repeat split; auto.
      rewrite S3. cbn [console add_console set_stdin List.length repeat].
      rewrite <- app_assoc. reflexivity.
    + rewrite confirm_cons, El.
      rewrite <- (set_stdin_add_console skipped (l :: skipped)).
      destruct (IH (add_console (confirm_prompt prompt) (set_stdin (l :: skipped) w)) Hs)
        as [_ H].
      exact H.
Qed.

(** X1 with the lines "maybe" and "what?" typed before " Yes ". *)
Lemma confirm_first_recognised_witness :
  forallb (no_answer plain_lower) [py "maybe"; py "what?"] = true
  /\ answer_of plain_lower (py " Yes ") = Some true
  /\ returned (confirm plain_lower (py "Continue?")
                 (set_stdin ([py "maybe"; py "what?"] ++ py " Yes " :: [py "next"])
                            (demo_world [])))
     = Some true.
Proof.
  split; [reflexivity|]. split; [reflexivity|].
  destruct (proj1 (@confirm_first_recognised plain_lower (py "Continue?")
                     [py "maybe"; py "what?"] (demo_world []) eq_refl)
              (py " Yes ") true [py "next"] eq_refl) as (w' & E & _).
  rewrite E. reflexivity.
Defined.

(** ** How the interactive calls end *)

Lemma ends_well_bind {A B} (Q : A -> Prop) (P : B -> Prop) (c : M A) (k : A -> M B) :
  (forall w, ends_well Q (c w)) ->
  (forall a w, Q a -> ends_well P (k a w)) ->
  forall w, ends_well P (bind c k w).
Proof.
  intros Hc Hk w. unfold bind. specialize (Hc w).
  destruct (c w); cbn [ends_well] in *; auto.
Qed.

Lemma ends_well_weaken {A} (P Q : A -> Prop) (o : Outcome A) :
  (forall a, P a -> Q a) -> ends_well P o -> ends_well Q o.
Proof. intros H. destruct o; cbn [ends_well]; auto. Qed.

Lemma ends_well_ret {A} (P : A -> Prop) (a : A) (w : World) :
  P a -> ends_well P (ret a w).
Proof. intro H. exact H. Qed.

Lemma ends_well_print {B} (P : B -> Prop) (s : str) (k : M B) :
  (forall w, ends_well P (k w)) ->
  forall w, ends_well P (bind (print s) (fun _ => k) w).
Proof. intros H w. unfold bind, print, modify. apply H. Qed.

Lemma ends_well_input_loop {A} (P : A -> Prop) (prompt : str)
    (step : str -> M (option A)) :
  (forall l w, ends_well (fun r => match r with Some a => P a | None => True end)
                         (step l w)) ->
  forall lines w, ends_well P (input_loop prompt step lines w).
Proof.
  intros Hstep lines. induction lines as [|l rest IH]; intro w.
  - reflexivity.
  - cbn [input_loop].
    specialize (Hstep l (set_stdin rest (add_console prompt w))).
    destruct (step l (set_stdin rest (add_console prompt w))) as [[a|] w' | e w' | n w'];
      cbn [ends_well] in *; auto.
Qed.

Lemma ends_well_confirm (lower : str -> str) (prompt : str) (w : World) :
  ends_well (fun _ => True) (confirm lower prompt w).
Proof.
  unfold confirm, loop_on_input. apply ends_well_input_loop.
  intros l w0. unfold confirm_step.
  destruct (member _ _); [exact I|]. destruct (member _ _); exact I.
Qed.

Lemma ends_well_run_cmd (cmd : str) (env_vars : list (str * str)) (w : World) :
  ends_well (fun _ => True) (run_cmd cmd env_vars w).
Proof. rewrite run_cmd_spec. exact I. Qed.

Lemma ends_well_run_cmd_with_progress (cmd operation log_file : str)
    (env_vars : list (str * str)) (w : World) :
  ends_well (fun _ => True) (run_cmd_with_progress cmd operation log_file env_vars w).
Proof.
  destruct (run_cmd_with_progress_spec cmd operation log_file env_vars w)
    as (w' & E & _).
  rewrite E. exact I.
Qed.

(** ** What the text prompts hand back *)

Lemma dropwhile_head (p : char -> bool) (s : str) (c : char) (r : str) :
  dropwhile p s = c :: r -> p c = false.
Proof.
  induction s as [|x s IH]; simpl; [discriminate|].
  destruct (p x) eqn:E; [exact IH|]. intro H. inversion H; subst. exact E.
Qed.

Lemma dropwhile_suffix (p : char -> bool) (s : str) :
  exists x, s = x ++ dropwhile p s.
Proof.
  induction s as [|c s [x IH]]; simpl.
  - exists []. reflexivity.
  - destruct (p c).
    + exists (c :: x). simpl. now f_equal.
    + exists []. reflexivity.
Qed.

(** A stripped text neither begins nor ends with a stripped character, and
    stripping it again changes nothing. *)
Lemma strip_class_ends (p : char -> bool) (s : str) :
  (forall c r, strip_class p s = c :: r -> p c = false)
  /\ (forall c r, rev (strip_class p s) = c :: r -> p c = false)
  /\ strip_class p (strip_class p s) = strip_class p s.
Proof.
  unfold strip_class.
  set (u := dropwhile p s). set (t := dropwhile p (rev u)).
  assert (Ht : forall c r, t = c :: r -> p c = false).
  { intros c r. apply dropwhile_head. }
  assert (Hhead : forall c r, rev t = c :: r -> p c = false).
  { intros c r E.
    destruct (dropwhile_suffix p (rev u)) as [x Hx]. fold t in Hx.
    assert (Hu : u = rev t ++ rev x).
    { rewrite <- (rev_involutive u), Hx, rev_app_distr. reflexivity. }
    rewrite E in Hu. cbn [app] in Hu.
    apply (dropwhile_head p s (r := r ++ rev x)). exact Hu. }
  split; [exact Hhead|]. split.
  - intros c r. rewrite rev_involutive. apply Ht.
  - assert (D1 : dropwhile p (rev t) = rev t).
    { destruct (rev t) as [|c r] eqn:E; [reflexivity|].
      simpl. now rewrite (Hhead c r eq_refl). }
    rewrite D1, rev_involutive.
    assert (D2 : dropwhile p t = t).
    { destruct t as [|c r] eqn:E; [reflexivity|].
      simpl. now rewrite (Ht c r eq_refl). }
    now rewrite D2.
Qed.

Lemma startswith_one (p : str) (c : char) :
  startswith p [c] = match p with
                     | x :: _ => char_eqb c x
                     | [] => false
                     end.
Proof. destruct p; simpl; [reflexivity|]. now rewrite andb_true_r. Qed.

Lemma strip_slash_shape (s : str) :
  startswith (strip_slash s) [slash] = false
  /\ endswith (strip_slash s) [slash] = false.
Proof.
  unfold strip_slash, endswith.
  destruct (strip_class_ends (char_eqb slash) s) as (Hh & Hl & _).
  change (prefixb (rev [slash]) (rev (strip_class (char_eqb slash) s)))
    with (startswith (rev (strip_class (char_eqb slash) s)) [slash]).
  rewrite !startswith_one. split.
  - destruct (strip_class (char_eqb slash) s) as [|c r] eqn:E; [reflexivity|].
    exact (Hh c r eq_refl).
  - destruct (rev (strip_class (char_eqb slash) s)) as [|c r] eqn:E; [reflexivity|].
    exact (Hl c r eq_refl).
Qed.

Lemma custom_path_ends_well (lower : str -> str) (default : str) (w : World) :
  ends_well (fun p => p = default \/ relative_two_levels p)
            (get_custom_destination_path lower default w).
Proof.
  unfold get_custom_destination_path, loop_on_input.
  apply ends_well_input_loop. intros l w0.
  unfold custom_path_step, get_input_line, bind, cleanup, bind, print, modify, sys_exit.
  destruct (member _ _); [reflexivity|]. unfold ret at 1 2.
  destruct (strip_slash_shape match strip l with [] => [] | _ :: _ => strip l end)
    as [Hs He].
  destruct (strip_slash _) as [|c s] eqn:E.
  - left. reflexivity.
  - destruct (2 <? List.length (split slash (c :: s)))%nat eqn:L.
    + exact I.
    + right. repeat split; auto; [discriminate|].
      apply Nat.ltb_ge in L. exact L.
Qed.

(** X2. Whatever is typed, the custom path prompt hands back either the
    default it was given or a non-empty path that neither begins nor ends
    with a slash and has at most two segments; it ends otherwise only on the
    quit word (exit code 0) or when the input runs out.  It runs no command
    and writes nothing to the log. *)
Theorem custom_path_is_relative (lower : str -> str) (default : str) (w : World) :
  ends_well (fun p => p = default \/ relative_two_levels p)
            (get_custom_destination_path lower default w)
  /\ events (world_of (get_custom_destination_path lower default w)) = events w.
Proof.
  split; [apply custom_path_ends_well | apply custom_path_events].
Qed.


Lemma get_input_ends_well (lower : str -> str) (prompt default : str) (w : World) :
  ends_well (fun r => r = default
                      \/ (r <> [] /\ strip r = r
                          /\ member (lower r) quit_words = false))
            (get_input lower prompt default w).
Proof.
  unfold get_input, bind, input.
  destruct (stdin (add_console (CYAN ++ prompt ++ py ": " ++ RESET) w)) as [|l rest];
    [reflexivity|].
  unfold get_input_line, bind, cleanup, bind, print, modify, sys_exit.
  fold quit_words.
  destruct (member (lower (strip l)) quit_words) eqn:Q; [reflexivity|].
  unfold ret. cbn [ends_well].
  destruct (strip l) as [|c s] eqn:E; [left; reflexivity|].
  right. split; [discriminate|]. split; [|exact Q].
  rewrite <- E. unfold strip. apply strip_class_ends.
Qed.

(** X3. A general input prompt hands back either the default or the typed
    line with its surrounding white space removed: a non-empty text that
    trimming leaves unchanged and that is not the quit word.  It runs no
    command and writes nothing to the log. *)
Theorem get_input_is_trimmed (lower : str -> str) (prompt default : str) (w : World) :
  ends_well (fun r => r = default
                      \/ (r <> [] /\ strip r = r
                          /\ member (lower r) quit_words = false))
            (get_input lower prompt default w)
  /\ events (world_of (get_input lower prompt default w)) = events w.
Proof.
  split; [apply get_input_ends_well|].
  unfold get_input, bind, input.
  destruct (stdin (add_console (CYAN ++ prompt ++ py ": " ++ RESET) w)) as [|l rest];
    [reflexivity|].
  unfold get_input_line, bind, cleanup, bind, print, modify, sys_exit.
  destruct (member _ _); reflexivity.
Qed.

(** ** Where the strategies write *)

Lemma prefixb_app (a b : str) : prefixb a (a ++ b) = true.
Proof.
  induction a as [|c a IH]; simpl; [reflexivity|].
  unfold char_eqb. now rewrite N.eqb_refl.
Qed.

Lemma prefixb_app_r (a p t : str) :
  prefixb a p = true -> prefixb a (p ++ t) = true.
Proof.
  revert p. induction a as [|c a IH]; intros p H; [reflexivity|].
  destruct p as [|x p]; [discriminate|]. cbn [prefixb app] in *.
  apply andb_true_iff in H. destruct H as [H1 H2].
  rewrite H1. cbn [andb]. now apply IH.
Qed.

Lemma prefixb_app_same (a x y : str) : prefixb (a ++ x) (a ++ y) = prefixb x y.
Proof.
  induction a as [|c a IH]; [reflexivity|].
  cbn [app prefixb]. unfold char_eqb. now rewrite N.eqb_refl.
Qed.

Lemma endswith_extend (p l t : str) :
  endswith p l = true -> endswith (p ++ t) (l ++ t) = true.
Proof.
  unfold endswith. rewrite !rev_app_distr, prefixb_app_same. auto.
Qed.

Lemma endswith_app (a b : str) : endswith (a ++ b) b = true.
Proof. unfold endswith. rewrite rev_app_distr. apply prefixb_app. Qed.

Lemma endswith_one_inv (x : str) (c : char) :
  endswith x [c] = true -> exists x', x = x' ++ [c].
Proof.
  unfold endswith. cbn [rev app]. intro H.
  destruct (rev x) as [|d r] eqn:E; [discriminate|].
  cbn [prefixb] in H. rewrite andb_true_r in H.
  apply N.eqb_eq in H. subst d.
  exists (rev r). rewrite <- (rev_involutive x), E. reflexivity.
Qed.

(** Joining a component that does not begin with a slash to a non-empty
    path keeps the path in front and puts the component behind a slash. *)
Lemma path_join2_relative (a b : str) :
  a <> [] -> startswith b [slash] = false ->
  (exists t, path_join2 a b = a ++ t)
  /\ endswith (path_join2 a b) (slash :: b) = true
  /\ path_join2 a b <> [].
Proof.
  intros Ha Hb. unfold path_join2. rewrite Hb.
  destruct a as [|c a]; [congruence|]. cbn [orb].
  destruct (endswith (c :: a) [slash]) eqn:E.
  - split; [eexists; reflexivity|]. split; [|discriminate].
    apply endswith_one_inv in E. destruct E as [x' ->].
    rewrite <- app_assoc. apply endswith_app.
  - split; [eexists; reflexivity|]. split; [|discriminate].
    change ((c :: a) ++ [slash] ++ b) with ((c :: a) ++ slash :: b).
    apply endswith_app.
Qed.

Lemma disk_path_location (user : option str) (dest_type dest_value cp leaf : str) :
  PyStr.eqb dest_type (py "cloud") = false ->
  startswith dest_value [slash] = false ->
  startswith cp [slash] = false ->
  startswith leaf [slash] = false ->
  let p := os_path_join
             (os_path_join (py "/run/media/" ++ match user with
                                                | Some name => name
                                                | None => py "None"
                                                end) [dest_value])
             [cp; leaf] in
  startswith p (py "/run/media/") = true /\ endswith p (slash :: leaf) = true.
Proof.
  intros _ Hd Hc Hl. cbv zeta. unfold os_path_join. cbn [fold_left].
  set (root := py "/run/media/" ++ _).
  assert (Hr : root <> []) by (subst root; discriminate).
  destruct (@path_join2_relative root dest_value Hr Hd) as ([t1 E1] & _ & N1).
  destruct (@path_join2_relative _ cp N1 Hc) as ([t2 E2] & _ & N2).
  destruct (@path_join2_relative _ leaf N2 Hl) as ([t3 E3] & L3 & _).
  split; [|exact L3].
  rewrite E3, E2, E1. subst root. unfold startswith.
  rewrite <- !app_assoc. apply prefixb_app.
Qed.

Lemma starts_after_app (a b : str) (c : char) :
  startswith a [c] = false -> startswith b [c] = false ->
  startswith (a ++ b) [c] = false.
Proof.
  rewrite !startswith_one. destruct a; simpl; auto.
Qed.

Lemma simple_project_path_spec (dest_type dest_value custom_path leaf : str) (w : World) :
  simple_project_path dest_type dest_value custom_path leaf w
  = Normal (project_path_of (env_USER w) dest_type dest_value custom_path leaf) w.
Proof.
  unfold simple_project_path, project_path_of.
  destruct (PyStr.eqb dest_type (py "cloud")); reflexivity.
Qed.

Lemma ends_well_modify {B} (P : B -> Prop) (f : World -> World) (k : M B) :
  (forall w, ends_well P (k w)) ->
  forall w, ends_well P (bind (modify f) (fun _ => k) w).
Proof. intros H w. unfold bind, modify. apply H. Qed.

Lemma secure_result_discipline (lower : str -> str) (P : str -> Prop)
    (src_path normalized_name password dest_type dest_value log_file : str) :
  (forall user cp,
     cp = py "manual_nas_encrypted" \/ relative_two_levels cp ->
     P (repo_path_of user dest_type dest_value cp (repo_name normalized_name))) ->
  forall w,
    ends_well (strategy_result P)
      (handle_secure_backup lower src_path normalized_name password
                            dest_type dest_value log_file w).
Proof.
  intros HP. unfold handle_secure_backup.
  apply ends_well_bind
    with (Q := fun cp => cp = py "manual_nas_encrypted" \/ relative_two_levels cp);
    [apply custom_path_ends_well|].
  intros cp w1 Hcp. apply ends_well_bind with (Q := P).
  { intro w. rewrite secure_repo_path_spec. apply HP, Hcp. }
  intros rp w2 Hrp. apply ends_well_print. apply ends_well_modify.
  apply ends_well_bind with (Q := fun _ => True); [apply ends_well_run_cmd|].
  intros probe w3 _.
  apply ends_well_bind with (Q := fun _ => True); [apply ends_well_confirm|].
  intros proceed w4 _. destruct proceed; cbn [negb]; [|reflexivity].
  apply ends_well_bind with (Q := fun _ => True).
  { intro w. destruct (negb (fst probe)); [|exact I].
    apply ends_well_bind with (Q := fun _ => True);
      [apply ends_well_run_cmd_with_progress | intros; exact I]. }
  intros initialised w5 _. destruct initialised; cbn [negb]; [|reflexivity].
  apply ends_well_bind with (Q := fun _ => True);
    [apply ends_well_run_cmd_with_progress|].
  intros [success output] w6 _. exact Hrp.
Qed.

Lemma simple_result_discipline (lower : str -> str) (P : str -> Prop)
    (src_path normalized_name dest_type dest_value log_file : str) :
  (forall user cp ymd,
     cp = py "manual_nas_backup" \/ relative_two_levels cp ->
     P (project_path_of user dest_type dest_value cp (backup_name normalized_name))
     /\ P (project_path_of user dest_type dest_value cp (backup_name normalized_name)
             ++ py "_duplicated_" ++ ymd)) ->
  forall w,
    ends_well (strategy_result P)
      (handle_simple_copy lower src_path normalized_name
                          dest_type dest_value log_file w).
Proof.
  intros HP. unfold handle_simple_copy.
  apply ends_well_bind
    with (Q := fun cp => cp = py "manual_nas_backup" \/ relative_two_levels cp);
    [apply custom_path_ends_well|].
  intros cp w1 Hcp.
  apply ends_well_bind
    with (Q := fun pp => P pp /\ forall ymd, P (pp ++ py "_duplicated_" ++ ymd)).
  { intro w. rewrite simple_project_path_spec.
    split; [exact (proj1 (HP (env_USER w) cp [] Hcp))
           | intro ymd; exact (proj2 (HP (env_USER w) cp ymd Hcp))]. }
  intros pp0 w2 [Hpp Hdup].
  apply ends_well_bind with (Q := fun _ => True); [apply ends_well_run_cmd|].
  intros probe w3 _.
  apply ends_well_bind with (Q := P).
  { intro w. destruct (fst probe); [|exact Hpp].
    apply ends_well_print.
    apply ends_well_bind with (Q := fun _ => True); [apply ends_well_confirm|].
    intros merge w4 _. destruct merge; cbn [negb]; [exact Hpp|].
    unfold bind, get, print, modify, ret. apply Hdup. }
  intros pp w4 Hp.
  apply ends_well_bind with (Q := fun _ => True); [apply ends_well_confirm|].
  intros proceed w5 _. destruct proceed; cbn [negb]; [|reflexivity].
  apply ends_well_bind with (Q := fun _ => True);
    [apply ends_well_run_cmd_with_progress|].
  intros [success output] w6 _. exact Hp.
Qed.

Lemma relative_or_default_start (default cp : str) :
  startswith default [slash] = false ->
  cp = default \/ relative_two_levels cp ->
  startswith cp [slash] = false.
Proof. intros Hd [-> | (_ & H & _)]; assumption. Qed.

(** X4. On a disk destination whose name does not begin with a slash, and
    for a source name that does not either, the secure strategy only ever
    reports a repository that lies under "/run/media/" and whose last
    component is the name followed by "_encrypted", whatever path the user
    types; a result without data is a failure. *)
Theorem secure_disk_repository_location (lower : str -> str)
    (src_path normalized_name password dest_type dest_value log_file : str)
    (w : World) :
  PyStr.eqb dest_type (py "cloud") = false ->
  startswith dest_value [slash] = false ->
  startswith normalized_name [slash] = false ->
  ends_well
    (strategy_result
       (fun d => startswith d (py "/run/media/") = true
                 /\ endswith d (slash :: repo_name normalized_name) = true))
    (handle_secure_backup lower src_path normalized_name password
                          dest_type dest_value log_file w).
Proof.
  intros Hk Hd Hn. apply secure_result_discipline. intros user cp Hcp.
  unfold repo_path_of. rewrite Hk.
  apply disk_path_location with (dest_type := dest_type); auto.
  - eapply relative_or_default_start; [|exact Hcp]. reflexivity.
  - unfold repo_name. now apply starts_after_app.
Qed.

(** X4 for the folder "docs" on the disk "Backup1", with the custom path
    "a/b" typed. *)
Lemma secure_disk_repository_location_witness :
  ends_well
    (strategy_result
       (fun d => startswith d (py "/run/media/") = true
                 /\ endswith d (slash :: repo_name (py "docs")) = true))
    (handle_secure_backup plain_lower (py "/home/ana/Docs") (py "docs") (py "pw")
                          (py "disk") (py "Backup1") (py "backup.log")
                          (demo_world [py "/a/b/"; py "y"])).
Proof.
  exact (@secure_disk_repository_location plain_lower (py "/home/ana/Docs")
           (py "docs") (py "pw") (py "disk") (py "Backup1") (py "backup.log")
           (demo_world [py "/a/b/"; py "y"]) eq_refl eq_refl eq_refl).
Defined.

(** X5. Under the same conditions the simple strategy only ever reports a
    folder under "/run/media/": the folder named after the source followed
    by "_backup", or that name followed by "_duplicated_" and a date. *)
Theorem simple_disk_folder_location (lower : str -> str)
    (src_path normalized_name dest_type dest_value log_file : str) (w : World) :
  PyStr.eqb dest_type (py "cloud") = false ->
  startswith dest_value [slash] = false ->
  startswith normalized_name [slash] = false ->
  ends_well
    (strategy_result
       (fun d => startswith d (py "/run/media/") = true
                 /\ (endswith d (slash :: backup_name normalized_name) = true
                     \/ exists ymd,
                          endswith d (slash :: backup_name normalized_name
                                            ++ py "_duplicated_" ++ ymd) = true)))
    (handle_simple_copy lower src_path normalized_name
                        dest_type dest_value log_file w).
Proof.
  intros Hk Hd Hn. apply simple_result_discipline. intros user cp ymd Hcp.
  unfold project_path_of. rewrite Hk.
  assert (Hc : startswith cp [slash] = false).
  { eapply relative_or_default_start; [|exact Hcp]. reflexivity. }
  assert (Hl : startswith (backup_name normalized_name) [slash] = false).
  { unfold backup_name. now apply starts_after_app. }
  destruct (@disk_path_location user dest_type dest_value cp
              (backup_name normalized_name) Hk Hd Hc Hl) as [S E].
  cbv zeta in S, E. split; [split; [exact S | left; exact E] | split].
  - unfold startswith in *. now apply prefixb_app_r.
  - right. exists ymd.
    change (slash :: backup_name normalized_name ++ py "_duplicated_" ++ ymd)
      with ((slash :: backup_name normalized_name) ++ py "_duplicated_" ++ ymd).
    now apply endswith_extend.
Qed.

(** X5 with the existing folder declined, so that a dated folder is used. *)
Lemma simple_disk_folder_location_witness :
  ends_well
    (strategy_result
       (fun d => startswith d (py "/run/media/") = true
                 /\ (endswith d (slash :: backup_name (py "docs")) = true
                     \/ exists ymd,
                          endswith d (slash :: backup_name (py "docs")
                                            ++ py "_duplicated_" ++ ymd) = true)))
    (handle_simple_copy plain_lower (py "/home/ana/Docs") (py "docs")
                        (py "disk") (py "Backup1") (py "backup.log")
                        (demo_world [[]; py "n"; py "y"])).
Proof.
  exact (@simple_disk_folder_location plain_lower (py "/home/ana/Docs")
           (py "docs") (py "disk") (py "Backup1") (py "backup.log")
           (demo_world [[]; py "n"; py "y"]) eq_refl eq_refl eq_refl).
Defined.

(** ** How the backup phase ends *)








(** ** The secondary destination *)

Lemma nth_error_nth_in {A} (l : list A) (n : nat) (d : A) :
  (n < List.length l)%nat -> nth_error l n = Some (nth n l d).
Proof.
  revert n. induction l as [|x l IH]; intros [|n] H; simpl in *; try lia; auto.
  apply IH. lia.
Qed.

(** X8. The number typed for the secondary destination is used as a Python
    index after 1 is subtracted: a number between 1 and the number of
    candidates picks that candidate; a number from 0 down to one minus the
    number of candidates counts from the end, so that 0 picks the last
    candidate; any other number, and any text that is not a number, leaves
    the destinations as they are and prints the warning. *)
Theorem pick_secondary_index (py_int : str -> option Z) (kind : string)
    (candidates : list str) (choice : str) (destinations : list Destination)
    (w : World) :
  pick_secondary py_int kind candidates choice destinations w
  = match py_int choice with
    | Some n =>
        let len := Z.of_nat (List.length candidates) in
        if ((1 <=? n) && (n <=? len))%Z then
          Normal (destinations ++ [(py kind, nth (Z.to_nat (n - 1)) candidates [])]) w
        else if ((1 - len <=? n) && (n <=? 0))%Z then
          Normal (destinations
                    ++ [(py kind, nth (Z.to_nat (len + n - 1)) candidates [])]) w
        else Normal destinations (add_console invalid_selection_message w)
    | None => Normal destinations (add_console invalid_selection_message w)
    end.
Proof.
  unfold pick_secondary, py_index. destruct (py_int choice) as [n|]; [|reflexivity].
  cbv zeta.
  destruct (Z.leb_spec 1 n) as [H1|H1]; cbn [andb].
  - replace (0 <=? n - 1)%Z with true by (symmetry; apply Z.leb_le; lia).
    destruct (Z.leb_spec n (Z.of_nat (List.length candidates))) as [H2|H2].
    + rewrite (nth_error_nth_in candidates []) by lia. reflexivity.
    + replace (nth_error candidates (Z.to_nat (n - 1))) with (@None str)
        by (symmetry; apply nth_error_None; lia).
      replace ((1 - Z.of_nat (List.length candidates) <=? n) && (n <=? 0))%Z
        with false by (symmetry; apply andb_false_iff; right; apply Z.leb_gt; lia).
      reflexivity.
  - replace (0 <=? n - 1)%Z with false by (symmetry; apply Z.leb_gt; lia).
    replace (n <=? 0)%Z with true by (symmetry; apply Z.leb_le; lia).
    rewrite andb_true_r.
    replace (Z.of_nat (List.length candidates) + (n - 1))%Z
      with (Z.of_nat (List.length candidates) + n - 1)%Z by lia.
    destruct (Z.leb_spec (1 - Z.of_nat (List.length candidates)) n) as [H2|H2].
    + replace (0 <=? Z.of_nat (List.length candidates) + n - 1)%Z with true
        by (symmetry; apply Z.leb_le; lia).
      rewrite (nth_error_nth_in candidates []) by lia. reflexivity.
    + replace (0 <=? Z.of_nat (List.length candidates) + n - 1)%Z with false
        by (symmetry; apply Z.leb_gt; lia).
      reflexivity.
Qed.

Lemma py_index_in {A} (l : list A) (i : Z) (v : A) :
  py_index l i = Some v -> In v l.
Proof.
  unfold py_index. destruct (0 <=? i)%Z.
  - apply nth_error_In.
  - destruct (0 <=? _)%Z; [apply nth_error_In | discriminate].
Qed.

Lemma pick_secondary_ends_well (py_int : str -> option Z) (kind : string)
    (candidates : list str) (choice : str) (destinations : list Destination)
    (w : World) :
  ends_well (fun l => l = destinations
                      \/ exists v, In v candidates /\ l = destinations ++ [(py kind, v)])
            (pick_secondary py_int kind candidates choice destinations w).
Proof.
  unfold pick_secondary. destruct (py_int choice) as [n|].
  - destruct (py_index candidates (n - 1)) as [v|] eqn:E.
    + right. exists v. split; [now apply py_index_in in E | reflexivity].
    + left. reflexivity.
  - left. reflexivity.
Qed.

Lemma print_all_then {B} (P : B -> Prop) (l : list str) (k : M B) :
  (forall w, ends_well P (k w)) ->
  forall w, ends_well P (bind (print_all l) (fun _ => k) w).
Proof. intros H w. unfold bind. rewrite print_all_spec. apply H. Qed.

Lemma print_numbered_then {B} (P : B -> Prop) (show : str -> str) (l : list str)
    (k : M B) :
  (forall w, ends_well P (k w)) ->
  forall w, ends_well P (bind (print_numbered show l) (fun _ => k) w).
Proof.
  intros H. induction l as [|x l IH]; intro w.
  - apply H.
  - cbn [print_numbered]. unfold bind at 1 2. unfold print, modify.
    apply IH.
Qed.

(** X9. The resolved destination list is the primary destination alone,
    or the primary disk followed by one of the configured cloud remotes, or
    one of the disks followed by the primary cloud remote: at most one
    secondary destination, of the other kind, with the disk in front. *)
Theorem resolve_destinations_shape (lower : str -> str) (py_int : str -> option Z)
    (primary : Destination) (disks configured_remotes : list str) (w : World) :
  ends_well
    (fun l =>
       l = [primary]
       \/ (PyStr.eqb (fst primary) (py "disk") = true
           /\ exists v, In v configured_remotes /\ l = [primary; (py "cloud", v)])
       \/ (PyStr.eqb (fst primary) (py "cloud") = true
           /\ exists v, In v disks /\ l = [(py "disk", v); primary]))
    (resolve_destinations lower py_int primary disks configured_remotes w).
Proof.
  unfold resolve_destinations.
  apply ends_well_bind
    with (Q := fun d =>
                 d = [primary]
                 \/ (PyStr.eqb (fst primary) (py "disk") = true
                     /\ exists v, In v configured_remotes
                                  /\ d = [primary] ++ [(py "cloud", v)])
                 \/ (PyStr.eqb (fst primary) (py "cloud") = true
                     /\ exists v, In v disks /\ d = [primary] ++ [(py "disk", v)])).
  - intro w0.
    destruct (PyStr.eqb (fst primary) (py "disk")
              && match configured_remotes with [] => false | _ :: _ => true end) eqn:C1.
    + apply andb_true_iff in C1. destruct C1 as [C1 _].
      apply ends_well_bind with (Q := fun _ => True); [apply ends_well_confirm|].
      intros more w1 _. destruct more; [|left; reflexivity].
      apply ends_well_print. apply print_numbered_then.
      apply ends_well_bind with (Q := fun _ => True).
      { intro w2. eapply ends_well_weaken; [|apply get_input_ends_well]. auto. }
      intros remote_choice w2 _.
      eapply ends_well_weaken; [|apply pick_secondary_ends_well].
      cbn beta. intros l [-> | (v & Hv & ->)]; [left; reflexivity|].
      right. left. split; [exact C1|]. exists v. auto.
    + destruct (PyStr.eqb (fst primary) (py "cloud")
                && match disks with [] => false | _ :: _ => true end) eqn:C2;
        [|left; reflexivity].
      apply andb_true_iff in C2. destruct C2 as [C2 _].
      apply ends_well_bind with (Q := fun _ => True); [apply ends_well_confirm|].
      intros more w1 _. destruct more; [|left; reflexivity].
      apply ends_well_print. apply print_numbered_then.
      apply ends_well_bind with (Q := fun _ => True).
      { intro w2. eapply ends_well_weaken; [|apply get_input_ends_well]. auto. }
      intros disk_choice w2 _.
      eapply ends_well_weaken; [|apply pick_secondary_ends_well].
      cbn beta. intros l [-> | (v & Hv & ->)]; [left; reflexivity|].
      right. right. split; [exact C2|]. exists v. auto.
  - intros d w0 Hd. unfold ret. cbn [ends_well].
    destruct Hd as [-> | [(C & v & Hv & ->) | (C & v & Hv & ->)]].
    + left. reflexivity.
    + right. left. split; [exact C|]. exists v. split; [exact Hv|].
      unfold sort_destinations. cbn [app sort_by_key insert_by_key].
      assert (Hc : is_cloud primary = false).
      { apply is_disk_not_cloud. exact C. }
      rewrite Hc. reflexivity.
    + right. right. split; [exact C|]. exists v. split; [exact Hv|].
      unfold sort_destinations. cbn [app sort_by_key insert_by_key].
      change (is_cloud primary) with (PyStr.eqb (fst primary) (py "cloud")).
      rewrite C. reflexivity.
Qed.

(** ** The simple strategy and the streamed runner *)

Lemma last_n_bounds {A} (n : nat) (l : list A) :
  l <> [] -> (1 <= n)%nat ->
  (1 <= List.length (last_n n l) <= n)%nat.
Proof.
  intros Hl Hn. unfold last_n. rewrite length_skipn.
  destruct l as [|x l]; [congruence|]. cbn [List.length]. lia.
Qed.

(** X10. In the simple strategy, when the folder already exists at the
    destination and the user declines to merge into it but confirms the
    copy, the copy goes to the folder name followed by "_duplicated_" and
    the date: that is the path of the copy command and of the result, the
    existing folder is named in no command but the probe, and the summary
    kept has between one and three lines. *)
Theorem simple_copy_declined_merge (lower : str -> str)
    (src_path normalized_name dest_type dest_value log_file : str)
    (w w1 w3 w4 : World) (cp : str) :
  let leaf := backup_name normalized_name in
  let existing := project_path_of (env_USER w1) dest_type dest_value cp leaf in
  let dated := existing ++ py "_duplicated_" ++ clock_ymd w3 in
  get_custom_destination_path lower (py "manual_nas_backup") w = Normal cp w1 ->
  succeeded (shell w1 (events w1) (rclone_lsd_cmd existing)) = true ->
  confirm lower merge_question
          (add_console (folder_exists_warning leaf)
                       (add_event (EvExec (rclone_lsd_cmd existing) []) w1))
    = Normal false w3 ->
  confirm lower (proceed_copy_question dest_value)
          (add_console (new_folder_notice dated) w3)
    = Normal true w4 ->
  let o := handle_simple_copy lower src_path normalized_name
                              dest_type dest_value log_file w in
  exists ok summary,
    returned o = Some (ok, Some (mkResult dated summary))
    /\ (1 <= List.length summary <= 3)%nat
    /\ exec_cmds (events (world_of o))
       = exec_cmds (events w)
         ++ [rclone_lsd_cmd existing; rclone_copy_cmd src_path dated].
Proof.
  intros leaf existing dated Hcp Hprobe Hmerge Hproceed o.
  pose proof (custom_path_events lower (py "manual_nas_backup") w) as Ev1.
  rewrite Hcp in Ev1. cbn [world_of] in Ev1.
  pose proof (confirm_events lower merge_question
                (add_console (folder_exists_warning leaf)
                   (add_event (EvExec (rclone_lsd_cmd existing) []) w1))) as Ev3.
  rewrite Hmerge in Ev3. cbn [world_of] in Ev3.
  pose proof (confirm_events lower (proceed_copy_question dest_value)
                (add_console (new_folder_notice dated) w3)) as Ev4.
  rewrite Hproceed in Ev4. cbn [world_of] in Ev4.
  assert (E4 : exec_cmds (events w4) = exec_cmds (events w) ++ [rclone_lsd_cmd existing]).
  { rewrite Ev4. rewrite (proj2 (frame_add_console _ _)), Ev3.
    rewrite (proj2 (frame_add_console _ _)). cbn [events add_event].
    rewrite exec_cmds_app, Ev1. reflexivity. }
  assert (Ho : o = handle_simple_copy lower src_path normalized_name
                      dest_type dest_value log_file w) by reflexivity.
  clearbody o.
  unfold handle_simple_copy in Ho. unfold bind at 1 in Ho. rewrite Hcp in Ho.
  unfold bind at 1 in Ho. rewrite simple_project_path_spec in Ho.
  fold leaf in Ho. fold existing in Ho.
  unfold bind at 1 in Ho.
  destruct (run_cmd_succeeded (rclone_lsd_cmd existing) [] w1) as [out Hr].
  rewrite Hr in Ho. clear Hr. rewrite Hprobe in Ho. cbn [fst] in Ho.
  unfold bind at 1 in Ho. unfold bind at 1 in Ho. unfold print at 1 in Ho.
  unfold modify at 1 in Ho. unfold bind at 1 in Ho.
  change (py "Do you want to merge/update files into it? (N creates a duplicated folder)")
    with merge_question in Ho.
  change (WARN ++ py " A folder for '" ++ leaf
               ++ py "' already exists at the destination.")
    with (folder_exists_warning leaf) in Ho.
  rewrite Hmerge in Ho. cbn [negb] in Ho.
  unfold bind at 1 in Ho. unfold get at 1 in Ho. unfold bind at 1 in Ho.
  unfold print at 1 in Ho. unfold modify at 1 in Ho. unfold ret at 1 in Ho.
  fold dated in Ho.
  change (INFO ++ py " A new folder will be used: " ++ os_path_basename dated)
    with (new_folder_notice dated) in Ho.
  unfold bind at 1 in Ho.
  change (py "Proceed with simple copy to " ++ dest_value ++ py "?")
    with (proceed_copy_question dest_value) in Ho.
  rewrite Hproceed in Ho. cbn [negb] in Ho. unfold bind at 1 in Ho.
  destruct (run_cmd_with_progress_spec (rclone_copy_cmd src_path dated)
              (py "Simple copy to " ++ dest_value) log_file [] w4)
    as (w5 & R & C & _).
  rewrite R in Ho. clear R.
  destruct (streamed_result _) as [success output]. unfold ret in Ho.
  subst o. cbn [returned world_of].
  eexists. eexists. split; [reflexivity|]. split.
  - destruct (filter _ output) as [|x l] eqn:F.
    + cbn [List.length]. lia.
    + apply last_n_bounds; [discriminate | lia].
  - rewrite C, E4, <- app_assoc. reflexivity.
Qed.

(** X10 with the default path, "n" to the merge question and "y" to the
    copy. *)
Lemma simple_copy_declined_merge_witness :
  let w := demo_world [[]; py "n"; py "y"] in
  exists ok summary,
    returned (handle_simple_copy plain_lower (py "/home/ana/Docs") (py "docs")
                (py "cloud") (py "gdrive") (py "backup.log") w)
    = Some (ok, Some (mkResult (py "gdrive:manual_nas_backup/docs_backup_duplicated_20240101")
                               summary)).
Proof.
  intro w.
  assert (H : exists w1 w3 w4,
             get_custom_destination_path plain_lower (py "manual_nas_backup") w
             = Normal (py "manual_nas_backup") w1
             /\ env_USER w1 = Some (py "ana")
             /\ shell w1 = quiet_shell
             /\ confirm plain_lower merge_question
                  (add_console (folder_exists_warning (backup_name (py "docs")))
                     (add_event
                        (EvExec (rclone_lsd_cmd
                                   (project_path_of (Some (py "ana")) (py "cloud")
                                      (py "gdrive") (py "manual_nas_backup")
                                      (backup_name (py "docs")))) []) w1))
                = Normal false w3
             /\ clock_ymd w3 = py "20240101"
             /\ confirm plain_lower (proceed_copy_question (py "gdrive"))
                  (add_console
                     (new_folder_notice
                        (project_path_of (Some (py "ana")) (py "cloud") (py "gdrive")
                           (py "manual_nas_backup") (backup_name (py "docs"))
                         ++ py "_duplicated_" ++ py "20240101")) w3)
                = Normal true w4).
  { eexists. eexists. eexists.
    split; [vm_compute; reflexivity|].
    split; [reflexivity|]. split; [reflexivity|].
    split; [vm_compute; reflexivity|].
    split; [reflexivity|]. vm_compute. reflexivity. }
  destruct H as (w1 & w3 & w4 & Hcp & Hu & Hs & Hm & Hy & Hp).
  destruct (@simple_copy_declined_merge plain_lower (py "/home/ana/Docs") (py "docs")
              (py "cloud") (py "gdrive") (py "backup.log") w w1 w3 w4
              (py "manual_nas_backup") Hcp) as (ok & summary & E & _).
  - rewrite Hu, Hs. reflexivity.
  - rewrite Hu. exact Hm.
  - rewrite Hu, Hy. exact Hp.
  - exists ok, summary. rewrite E, Hu, Hy. reflexivity.
Defined.


(** ** Pre-flight checks *)

(** X12. The tool check never returns false: it returns true when both
    restic and rclone are found, and otherwise ends the process with exit
    code 1 after printing one line for each tool that is missing, restic
    first, and none for a tool that is found. *)
Theorem check_tools_outcome (which : str -> bool) (w : World) :
  let checking := INFO ++ py " Checking for required tools..." in
  let restic := tool_missing_line (py "restic") (py "https://restic.readthedocs.io") in
  let rclone := tool_missing_line (py "rclone") (py "https://rclone.org/install/") in
  check_tools which w
  = if which (py "restic") && which (py "rclone") then
      Normal true (add_console (OK ++ py " All tools are installed.")
                               (add_console checking w))
    else
      Exited 1%Z
        (fold_left (fun w0 s => add_console s w0)
           ((if which (py "restic") then [] else [restic])
              ++ (if which (py "rclone") then [] else [rclone]))
           (add_console checking w)).
Proof.
  cbv zeta. unfold check_tools, bind, print, modify, required_tools.
  cbn [forallb filter map fst snd]. rewrite andb_true_r.
  destruct (which (py "restic")); destruct (which (py "rclone"));
    cbn [andb negb filter map app]; try reflexivity;
    rewrite print_all_spec; reflexivity.
Qed.

Lemma dropwhile_split (p : char -> bool) (s : str) :
  exists x, s = x ++ dropwhile p s /\ forallb p x = true.
Proof.
  induction s as [|c s (x & IH & Hx)]; simpl.
  - exists []. split; reflexivity.
  - destruct (p c) eqn:E.
    + exists (c :: x). simpl. rewrite E, Hx. split; [now f_equal | reflexivity].
    + exists []. split; reflexivity.
Qed.

Lemma dropwhile_nil (p : char -> bool) (s : str) :
  dropwhile p s = [] -> forallb p s = true.
Proof.
  intro H. destruct (dropwhile_split p s) as (x & E & Hx).
  rewrite H, app_nil_r in E. now subst.
Qed.

Lemma strip_class_nil (p : char -> bool) (s : str) :
  strip_class p s = [] -> forallb p s = true.
Proof.
  unfold strip_class. intro H.
  assert (H1 : dropwhile p (rev (dropwhile p s)) = []).
  { rewrite <- (rev_involutive (dropwhile p (rev (dropwhile p s)))), H. reflexivity. }
  apply dropwhile_nil in H1.
  assert (H2 : forallb p (dropwhile p s) = true).
  { rewrite <- (rev_involutive (dropwhile p s)). now apply forallb_rev. }
  destruct (dropwhile_split p s) as (x & E & Hx).
  rewrite E, forallb_app, Hx, H2. reflexivity.
Qed.

Lemma is_blank_spec (s : str) : is_blank s = true <-> forallb isspace s = true.
Proof.
  unfold is_blank, strip. split.
  - destruct (strip_class isspace s) eqn:E; [|discriminate].
    intros _. now apply strip_class_nil.
  - intro H. now rewrite (strip_class_all _ _ H).
Qed.

Lemma split_nonempty (sep : char) (s : str) : split sep s <> [].
Proof.
  destruct s as [|c s]; simpl; [discriminate|].
  destruct (char_eqb c sep); [discriminate|].
  destruct (split sep s); discriminate.
Qed.

Lemma blank_lines_blank_text (s : str) :
  forallb is_blank (split newline s) = true -> forallb isspace s = true.
Proof.
  induction s as [|c s IH]; [reflexivity|]. cbn [split].
  destruct (char_eqb c newline) eqn:E.
  - cbn [forallb]. intro H. apply andb_true_iff in H. destruct H as [_ H].
    apply N.eqb_eq in E. subst c. rewrite (IH H). reflexivity.
  - destruct (split newline s) as [|seg segs] eqn:Es.
    + now destruct (split_nonempty newline s).
    + cbn [forallb]. intro H. apply andb_true_iff in H. destruct H as [H1 H2].
      apply is_blank_spec in H1. cbn [forallb] in H1.
      apply andb_true_iff in H1. destruct H1 as [Hc Hseg].
      rewrite Hc. cbn [andb]. apply IH. cbn [forallb].
      rewrite H2, andb_true_r. now apply is_blank_spec.
Qed.

Lemma filter_negb_nil {A} (p : A -> bool) (l : list A) :
  filter (fun x => negb (p x)) l = [] -> forallb p l = true.
Proof.
  induction l as [|x l IH]; simpl; [reflexivity|].
  destruct (p x); simpl; [exact IH | discriminate].
Qed.

Lemma remote_lines_nonempty (out : str) :
  strip out <> [] -> remote_lines (strip out) <> [].
Proof.
  intros Hne Hnil. apply Hne. unfold remote_lines in Hnil.
  apply filter_negb_nil, blank_lines_blank_text in Hnil.
  unfold strip in *.
  rewrite <- (proj2 (proj2 (strip_class_ends isspace out))).
  now apply strip_class_all.
Qed.

Lemma rstrip_colon_end (r : str) : endswith (rstrip_colon r) [colon] = false.
Proof.
  unfold endswith, rstrip_colon. rewrite rev_involutive.
  change (prefixb (rev [colon]) (dropwhile (char_eqb colon) (rev r)))
    with (startswith (dropwhile (char_eqb colon) (rev r)) [colon]).
  rewrite startswith_one.
  destruct (dropwhile (char_eqb colon) (rev r)) as [|c t] eqn:E; [reflexivity|].
  exact (dropwhile_head _ _ E).
Qed.

(** X13. The remote check always returns a list.  The list is empty when
    the listing command fails, cannot be run or prints nothing but white
    space; otherwise it is not empty and holds, for each line of the trimmed
    listing that is not blank, that line without its trailing colons.  No
    name in the list ends with a colon. *)
Theorem check_rclone_config_remotes (w : World) :
  let listing :=
    shell (add_console (INFO ++ py " Checking rclone configuration...") w)
          (events w) (py "rclone listremotes") in
  exists remotes w',
    check_rclone_config w = Normal remotes w'
    /\ forallb (fun r => negb (endswith r [colon])) remotes = true
    /\ match listing with
       | Completes stdout _ returncode =>
           if Z.eqb returncode 0
              && match strip stdout with [] => false | _ :: _ => true end
           then remotes = map rstrip_colon (remote_lines (strip stdout))
                /\ remotes <> []
           else remotes = []
       | Fails _ _ => remotes = []
       end.
Proof.
  cbv zeta. unfold check_rclone_config. unfold bind at 1. unfold print at 1.
  unfold modify at 1. unfold bind at 1. rewrite run_cmd_spec.
  change (events (add_console (INFO ++ py " Checking rclone configuration...") w))
    with (events w).
  destruct (shell _ (events w) (py "rclone listremotes")) as [out merged rc | merged exn].
  - destruct (Z.eqb rc 0); cbn [negb orb andb].
    + destruct (strip out) as [|c s] eqn:E.
      * unfold bind, print, modify, ret. eexists. eexists.
        split; [reflexivity|]. split; reflexivity.
      * unfold bind, print, modify, ret. eexists. eexists.
        split; [reflexivity|]. split; [|split].
        -- apply forallb_forall. intros r Hr. apply in_map_iff in Hr.
           destruct Hr as (x & <- & _). now rewrite rstrip_colon_end.
        -- reflexivity.
        -- fold (remote_lines (c :: s)). rewrite <- E.
           intro Hm. apply map_eq_nil in Hm.
           apply (remote_lines_nonempty out); [rewrite E; discriminate | exact Hm].
    + unfold bind, print, modify, ret. eexists. eexists.
      split; [reflexivity|]. split; reflexivity.
  - cbn [negb orb]. unfold bind, print, modify, ret. eexists. eexists.
    split; [reflexivity|]. split; reflexivity.
Qed.

(** ** Elapsed time *)

Lemma format_02d_two_digits (k : Z) :
  (0 <= k < 100)%Z -> format_02d k = two_digits k.
Proof.
  intro H.
  assert (T : forallb (fun n => PyStr.eqb (format_02d (Z.of_nat n))
                                          (two_digits (Z.of_nat n)))
                      (seq 0 100) = true) by (vm_compute; reflexivity).
  rewrite forallb_forall in T.
  specialize (T (Z.to_nat k)). rewrite Z2Nat.id in T by lia.
  apply str_eqb_eq, T. apply in_seq. lia.
Qed.

(** X14. For an elapsed time below 100 hours, [format_time] writes exactly
    eight characters, two digits of hours, of minutes and of seconds with
    colons between them; the minutes and seconds are below 60 and the three
    fields add up to the number of seconds given. *)
Theorem format_time_fields (seconds : Z) :
  (0 <= seconds < 360000)%Z ->
  let h := (seconds / 60 / 60)%Z in
  let m := ((seconds / 60) mod 60)%Z in
  let s := (seconds mod 60)%Z in
  format_time seconds = two_digits h ++ py ":" ++ two_digits m ++ py ":" ++ two_digits s
  /\ List.length (format_time seconds) = 8%nat
  /\ (seconds = 3600 * h + 60 * m + s)%Z
  /\ (0 <= h < 100)%Z /\ (0 <= m < 60)%Z /\ (0 <= s < 60)%Z.
Proof.
  intros H h m s.
  assert (Hs : (0 <= s < 60)%Z) by (apply Z.mod_pos_bound; lia).
  assert (Hm : (0 <= m < 60)%Z) by (apply Z.mod_pos_bound; lia).
  assert (Hq : (0 <= seconds / 60 < 6000)%Z).
  { split; [apply Z.div_pos; lia | apply Z.div_lt_upper_bound; lia]. }
  assert (Hh : (0 <= h < 100)%Z).
  { subst h. split; [apply Z.div_pos; lia | apply Z.div_lt_upper_bound; lia]. }
  assert (E : format_time seconds
              = two_digits h ++ py ":" ++ two_digits m ++ py ":" ++ two_digits s).
  { unfold format_time. cbv zeta. fold h. fold m. fold s.
    rewrite !format_02d_two_digits by lia. reflexivity. }
  split; [exact E|]. split; [rewrite E; reflexivity|].
  split; [|auto].
  pose proof (Z.div_mod seconds 60 ltac:(lia)) as D1.
  pose proof (Z.div_mod (seconds / 60) 60 ltac:(lia)) as D2.
  fold s in D1. fold m in D2. fold h in D2. lia.
Qed.

(** X14 at one hour, two minutes and five seconds. *)
Lemma format_time_fields_witness :
  (0 <= 3725 < 360000)%Z /\ format_time 3725 = py "01:02:05".
Proof.
  split; [lia|].
  rewrite (proj1 (@format_time_fields 3725%Z ltac:(lia))). reflexivity.
Defined.

(** ** The primary destination *)

Lemma str_eqb_neq (a b : str) : a <> b -> PyStr.eqb a b = false.
Proof.
  intro H. destruct (PyStr.eqb a b) eqn:E; [|reflexivity].
  apply str_eqb_eq in E. contradiction.
Qed.

Lemma dict_get_set {V} (k key : str) (v : V) (d : Dict V) :
  dict_get key (dict_set k v d)
  = if PyStr.eqb k key then Some v else dict_get key d.
Proof.
  induction d as [|[k' v'] r IH]; cbn [dict_set dict_get]; [reflexivity|].
  destruct (PyStr.eqb k' k) eqn:E.
  - apply str_eqb_eq in E. subst k'. cbn [dict_get].
    destruct (PyStr.eqb k key); reflexivity.
  - cbn [dict_get]. rewrite IH.
    destruct (PyStr.eqb k' key) eqn:E'; [|reflexivity].
    apply str_eqb_eq in E'. subst k'.
    rewrite str_eqb_neq; [reflexivity|]. intros ->. now rewrite str_eqb_refl in E.
Qed.

Lemma py_inj (a b : string) : py a = py b -> a = b.
Proof.
  unfold py. intro H.
  rewrite <- (string_of_list_ascii_of_string a),
          <- (string_of_list_ascii_of_string b).
  f_equal. revert H.
  generalize (list_ascii_of_string a) (list_ascii_of_string b).
  intros la. induction la as [|x la IH]; intros [|y lb]; cbn [map];
    try discriminate; [reflexivity|].
  intro H. inversion H as [[H1 H2]]. f_equal; [|auto].
  rewrite <- (ascii_N_embedding x), <- (ascii_N_embedding y). now f_equal.
Qed.

Lemma py_str_of_nat_inj (a b : nat) : py_str_of_nat a = py_str_of_nat b -> a = b.
Proof.
  unfold py_str_of_nat, py_str_of_int. intro H. apply py_inj in H.
  apply Nat2Z.inj. apply DecimalZ.to_int_inj.
  assert (N : forall z, NilZero.int_of_string (NilZero.string_of_int (Z.to_int z))
                        = Some (Z.to_int z)).
  { intro z. apply NilZero.isi; destruct z; cbn; try discriminate;
      intro X; inversion X as [X']; now apply DecimalPos.Unsigned.to_uint_nonnil in X'. }
  pose proof (N (Z.of_nat a)) as Na. rewrite H, N in Na. now inversion Na.
Qed.

Lemma add_options_cons (kind : string) (e : nat * str) (l : list (nat * str))
    (o : Dict Destination) :
  add_options kind (e :: l) o
  = add_options kind l (dict_set (py_str_of_nat (fst e)) (py kind, snd e) o).
Proof. reflexivity. Qed.

Lemma add_options_miss (kind : string) (key : str) (names : list str) :
  forall idx o,
    (forall k, (idx <= k < idx + List.length names)%nat -> key <> py_str_of_nat k) ->
    dict_get key (add_options kind (number_from idx names) o) = dict_get key o.
Proof.
  induction names as [|n names IH]; intros idx o H; [reflexivity|].
  cbn [number_from]. rewrite add_options_cons. cbn [fst snd].
  rewrite IH.
  - rewrite dict_get_set, str_eqb_neq; [reflexivity|].
    intro E. apply (H idx); [cbn [List.length]; lia | now symmetry].
  - intros k Hk. apply H. cbn [List.length]. lia.
Qed.

Lemma add_options_hit (kind : string) (names : list str) :
  forall idx o k v,
    (idx <= k)%nat -> nth_error names (k - idx) = Some v ->
    dict_get (py_str_of_nat k) (add_options kind (number_from idx names) o)
    = Some (py kind, v).
Proof.
  induction names as [|n names IH]; intros idx o k v Hk Hn.
  - destruct (k - idx)%nat; discriminate.
  - cbn [number_from]. rewrite add_options_cons. cbn [fst snd].
    destruct (Nat.eq_dec k idx) as [->|Hne].
    + rewrite Nat.sub_diag in Hn. cbn [nth_error] in Hn. inversion Hn; subst.
      rewrite add_options_miss.
      * now rewrite dict_get_set, str_eqb_refl.
      * intros j Hj E. apply py_str_of_nat_inj in E. lia.
    + apply IH; [lia|].
      replace (k - idx)%nat with (S (k - S idx)) in Hn by lia. exact Hn.
Qed.

Lemma get_input_line_read (lower : str -> str) (prompt default line : str)
    (rest : list str) (w : World) :
  stdin w = line :: rest ->
  member (lower (strip line)) quit_words = false ->
  get_input lower prompt default w
  = Normal (match strip line with [] => default | _ :: _ => strip line end)
           (set_stdin rest (add_console (input_prompt prompt) w)).
Proof.
  intros Hs Hq. unfold get_input, bind, input.
  change (stdin (add_console (CYAN ++ prompt ++ py ": " ++ RESET) w)) with (stdin w).
  rewrite Hs. unfold get_input_line, bind. fold quit_words. rewrite Hq.
  reflexivity.
Qed.

Lemma options_lookup (disks configured_remotes : list str) (key : str) :
  let options :=
    add_options "cloud" (number_from (1 + List.length disks) configured_remotes)
                (add_options "disk" (number_from 1 disks) []) in
  (forall k d,
     key = py_str_of_nat k -> (1 <= k)%nat ->
     nth_error (listed_destinations disks configured_remotes) (k - 1) = Some d ->
     dict_get key options = Some d)
  /\ ((forall k,
         (1 <= k <= List.length (listed_destinations disks configured_remotes))%nat ->
         key <> py_str_of_nat k) ->
      dict_get key options = None).
Proof.
  cbv zeta. unfold listed_destinations. split.
  - intros k d -> Hk Hn.
    destruct (Nat.lt_ge_cases (k - 1) (List.length disks)) as [Hlt|Hge].
    + rewrite nth_error_app1 in Hn by (now rewrite length_map).
      rewrite nth_error_map in Hn.
      destruct (nth_error disks (k - 1)) as [v|] eqn:E; [|discriminate].
      inversion Hn; subst.
      rewrite add_options_miss.
      * apply add_options_hit; [lia | exact E].
      * intros j Hj Ej. apply py_str_of_nat_inj in Ej. lia.
    + rewrite nth_error_app2 in Hn by (now rewrite length_map).
      rewrite length_map, nth_error_map in Hn.
      destruct (nth_error configured_remotes (k - 1 - List.length disks)) as [v|] eqn:E;
        [|discriminate].
      inversion Hn; subst.
      apply add_options_hit; [lia|].
      replace (k - (1 + List.length disks))%nat with (k - 1 - List.length disks)%nat
        by lia.
      exact E.
  - intro H. rewrite length_app, !length_map in H.
    rewrite add_options_miss by (intros k Hk; apply H; lia).
    rewrite add_options_miss by (intros k Hk; apply H; lia).
    reflexivity.
Qed.

Lemma select_primary_unfold (lower : str -> str)
    (disks configured_remotes : list str) (line : str) (rest : list str)
    (w : World) :
  stdin w = line :: rest ->
  member (lower (strip line)) quit_words = false ->
  let options :=
    add_options "cloud" (number_from (1 + List.length disks) configured_remotes)
                (add_options "disk" (number_from 1 disks) []) in
  exists wa wb wc,
    select_primary lower disks configured_remotes w
    = match options with
      | [] => Exited 1%Z wa
      | _ :: _ =>
          match dict_get (strip line) options with
          | None => Exited 1%Z wb
          | Some d => Normal [d] wc
          end
      end.
Proof.
  intros Hs Hq. cbv zeta. unfold select_primary. cbv zeta.
  unfold bind at 1. rewrite print_all_console.
  unfold bind at 1. rewrite print_all_console.
  destruct (add_options "cloud" _ _) as [|o os] eqn:Eo.
  - unfold bind, print, modify, sys_exit. eexists. exists w, w. reflexivity.
  - unfold bind at 1.
    rewrite (@get_input_line_read lower (py "Select a destination") [] line rest)
      by (cbn [stdin]; assumption).
    destruct (strip line) as [|c s]; cbv beta iota;
      (destruct (dict_get _ (o :: os)) as [d|];
       [exists w; exists w; eexists; reflexivity
       |exists w; eexists; exists w; reflexivity]).
Qed.

(** X15. The disks, then the cloud remotes, are numbered from 1.  When the
    line typed, trimmed, is the decimal text of the number of a listed
    destination, that destination is the primary one.  When it is the text
    of no such number (a number out of range, a number written with a sign
    or a leading zero, an empty line, any other text), the process ends with
    exit code 1. *)
Theorem select_primary_by_number (lower : str -> str)
    (disks configured_remotes : list str) (line : str) (rest : list str)
    (w : World) :
  stdin w = line :: rest ->
  member (lower (strip line)) quit_words = false ->
  (forall k d,
     strip line = py_str_of_nat k -> (1 <= k)%nat ->
     nth_error (listed_destinations disks configured_remotes) (k - 1) = Some d ->
     returned (select_primary lower disks configured_remotes w) = Some [d])
  /\ ((forall k,
         (1 <= k <= List.length (listed_destinations disks configured_remotes))%nat ->
         strip line <> py_str_of_nat k) ->
      exit_code (select_primary lower disks configured_remotes w) = Some 1%Z).
Proof.
  intros Hs Hq.
  destruct (options_lookup disks configured_remotes (strip line)) as [Hit Miss].
  cbv zeta in Hit, Miss.
  destruct (@select_primary_unfold lower disks configured_remotes line rest w Hs Hq)
    as (wa & wb & wc & E).
  cbv zeta in E. rewrite E. split.
  - intros k d Hk H1 Hn. rewrite (Hit k d Hk H1 Hn).
    destruct (add_options "cloud" _ _) as [|o os] eqn:Eo; [|reflexivity].
    specialize (Hit k d Hk H1 Hn). discriminate.
  - intro H. rewrite (Miss H).
    destruct (add_options "cloud" _ _); reflexivity.
Qed.

(** X15 with two disks and one remote listed and " 3 " typed. *)
Lemma select_primary_by_number_witness :
  let w := demo_world [py " 3 "] in
  stdin w = [py " 3 "]
  /\ member (plain_lower (strip (py " 3 "))) quit_words = false
  /\ returned (select_primary plain_lower [py "Backup1"; py "Backup2"] [py "gdrive"] w)
     = Some [(py "cloud", py "gdrive")].
Proof.
  intro w. split; [reflexivity|]. split; [reflexivity|].
  apply (proj1 (@select_primary_by_number plain_lower [py "Backup1"; py "Backup2"]
                  [py "gdrive"] (py " 3 ") [] w eq_refl eq_refl) 3%nat);
    [reflexivity | lia | reflexivity].
Defined.
